(** * lndmanage: demand-based fee setting ([lndmanage/lib/fee_setting.py])

    A shallow embedding of [FeeSetter] and the properties of its fee
    computation.

    Numbers.  Python's [int] and [float] values that enter the arithmetic
    are embedded as rationals [Q] with exact operations: the development
    describes the arithmetic the program writes down, not the rounding of
    binary64.  Values are compared with [==] ([Qeq]); decimal literals are
    written as in the source ([1.2], [2e-6], [100000 / 7]).  Integer
    quantities that are only stored, logged or passed on are [Z].

    Effects.  The methods log through [logger] and can raise; both are kept:
    a computation is a function from the log written so far to the extended
    log and either an exception or a value. *)

From Stdlib Require Import QArith Lqa ZArith.
From stdpp Require Import gmap strings list fin_maps.

Local Open Scope Q_scope.

(** ** Data model *)

(** An entry of [channels] (the dict returned by [node.get_all_channels()]);
    only the keys read by [fee_rate_change] are kept. *)
Record ChannelData : Type := {
  channel_point : string;
  capacity : Z;
  unbalancedness : Q
}.

(** An entry of [channels_forwarding_stats]. *)
Record ChannelStats : Type := {
  flow_direction : Q;
  fees_total : Z;
  total_forwarding_in : Z;
  total_forwarding_out : Z;
  number_forwardings : Z
}.

(** A fee policy, as read from [self.channel_fee_policies] and as emitted. *)
Record FeePolicy : Type := {
  base_fee_msat : Z;
  fee_rate : Q;
  cltv : Z
}.

(** The attributes of a [FeeSetter] instance that the computation reads.
    [time_interval_days] is only assigned by [set_fees_demand]; before that
    the attribute does not exist. *)
Record FeeSetter : Type := {
  channel_fee_policies : gmap string FeePolicy;
  time_interval_days : option Q
}.

(** Exceptions the embedded code can raise. *)
Inductive Exception : Type :=
| KeyError (key : string)
| ZeroDivisionError
| AttributeError (name : string).

(** One constructor per logging call of the module, carrying the arguments
    of the call.  The wall-clock stamp of the debug line is left out. *)
Inductive LogRecord : Type :=
| InfoDetermining
| InfoBaseFeeCltv (base_fee_msat cltv : Z)
| InfoNewPolicy (channel_id : Z)
| InfoInputs (ub flow fees_sat : Q)
             (capacity number_forwardings
              total_forwarding_in total_forwarding_out : Z)
| InfoOutward (amount_out : Q)
| InfoChangeFactors (factor_demand factor_unbalancedness factor_flow
                     weighted_change : Q)
| InfoFeeRate (fee_rate fee_rate_new : Q)
| DebugStats (channel_id total_forwarding_in total_forwarding_out : Z)
             (ub flow fees_sat : Q) (capacity : Z)
             (factor_demand factor_unbalancedness factor_flow
              weighted_change fee_rate fee_rate_new : Q)
| InfoAskConfirmation
| InfoHaveSet
| InfoDidntSet.

(** ** Logging computations that may raise *)

Definition M (A : Type) : Type :=
  list LogRecord -> list LogRecord * (Exception + A).

#[global] Instance M_ret : MRet M :=
  fun A a log => (log, inr a).

#[global] Instance M_bind : MBind M :=
  fun A B f m log =>
    match m log with
    | (log', inr a) => f a log'
    | (log', inl e) => (log', inl e)
    end.

Definition raise {A : Type} (e : Exception) : M A :=
  fun log => (log, inl e).

Definition logger (r : LogRecord) : M unit :=
  fun log => (log ++ [r], inr tt).

(** The log a computation leaves and what it returns or raises. *)
Definition log_of {A : Type} (m : M A) (log : list LogRecord) : list LogRecord :=
  fst (m log).

Definition outcome {A : Type} (m : M A) (log : list LogRecord) : Exception + A :=
  snd (m log).

(** ** Python primitives *)

(** [a > b] *)
Definition Qgt_bool (a b : Q) : bool := negb (Qle_bool a b).

(** [max(a, b)]: the first argument unless the second is strictly greater. *)
Definition py_max (a b : Q) : Q := if Qgt_bool b a then b else a.

(** [min(a, b)]: the first argument unless the second is strictly smaller. *)
Definition py_min (a b : Q) : Q := if Qgt_bool a b then b else a.

(** [a / b] with a divisor that is not a literal. *)
Definition py_div (a b : Q) : M Q :=
  if Qeq_bool b 0 then raise ZeroDivisionError else mret (a / b).

(** [self.time_interval_days] *)
Definition get_time_interval_days (self : FeeSetter) : M Q :=
  match time_interval_days self with
  | Some d => mret d
  | None => raise (AttributeError "time_interval_days")
  end.

(** [self.channel_fee_policies[key]] *)
Definition get_channel_fee_policy (self : FeeSetter) (key : string) : M FeePolicy :=
  match channel_fee_policies self !! key with
  | Some p => mret p
  | None => raise (KeyError key)
  end.

(** ** The factor functions *)

Definition factor_unbalancedness (ub : Q) : Q :=
  let c_max := 0.50 in
  let rescale := 0.5 in
  let c := 1 + ub * rescale in
  if Qgt_bool c 1 then py_min c (1 + c_max) else py_max c (1 - c_max).

Definition factor_flow (flow : Q) : Q :=
  let c_max := 0.5 in
  let rescale := 0.5 in
  let c := 1 + flow * rescale in
  if Qgt_bool c 1 then py_min c (1 + c_max) else py_max c (1 - c_max).

(** [capacity] is a parameter of the method and is not used by it. *)
Definition factor_demand (self : FeeSetter) (amount_out : Q) (capacity : Z) : M Q :=
  logger (InfoOutward amount_out);;
  days ← get_time_interval_days self;
  rate ← py_div amount_out days;
  let c_min := 0.25 in
  let c_max := 1.00 in
  let rate_target := 100000 / 7 in
  let c := c_min * (rate / rate_target - 1) + 1 in
  mret (py_min c (1 + c_max)).

(** ** The policy computation *)

(** What the loop of [fee_rate_change] reads from the forwarding statistics
    of one channel: [flow], [fees_sat], [total_forwarding_in],
    [total_forwarding_out], [total_forwarding], [number_forwardings]. *)
Definition read_channel_stats (channel_stats : option ChannelStats)
  : Q * Q * Z * Z * Z * Z :=
  match channel_stats with
  | None => (0, 0, 0%Z, 0%Z, 0%Z, 0%Z)
  | Some s =>
      let flow := flow_direction s in
      let fees_sat := inject_Z (fees_total s) / 1000 in
      let total_forwarding_in := total_forwarding_in s in
      let total_forwarding_out := total_forwarding_out s in
      let total_forwarding := (total_forwarding_in + total_forwarding_out)%Z in
      let number_forwardings := number_forwardings s in
      (flow, fees_sat, total_forwarding_in, total_forwarding_out,
       total_forwarding, number_forwardings)
  end.

(** The body of the loop of [fee_rate_change]: the channel point and the new
    policy stored under it. *)
Definition fee_rate_change_channel (self : FeeSetter)
    (channels_forwarding_stats : gmap Z ChannelStats)
    (base_fee_msat cltv : Z) (min_fee_rate : Q)
    (channel_id : Z) (channel_data : ChannelData) : M (string * FeePolicy) :=
  let channel_stats := channels_forwarding_stats !! channel_id in
  let '(flow, fees_sat, total_forwarding_in, total_forwarding_out,
        total_forwarding, number_forwardings) :=
    read_channel_stats channel_stats in
  let ub := unbalancedness channel_data in
  let capacity := capacity channel_data in
  policy ← get_channel_fee_policy self (channel_point channel_data);
  let fee_rate := fee_rate policy in
  logger (InfoNewPolicy channel_id);;
  logger (InfoInputs ub flow fees_sat capacity number_forwardings
            total_forwarding_in total_forwarding_out);;
  let wgt_demand := 1.2 in
  let wgt_ub := 1.0 in
  let wgt_flow := 0.6 in
  factor_demand ← factor_demand self (inject_Z total_forwarding_out) capacity;
  let factor_unbalancedness := factor_unbalancedness ub in
  let factor_flow := factor_flow flow in
  let wgt_flow := if (total_forwarding =? 0)%Z then 0 else wgt_flow in
  weighted_change ←
    py_div (wgt_ub * factor_unbalancedness +
            wgt_flow * factor_flow +
            wgt_demand * factor_demand)
           (wgt_ub + wgt_flow + wgt_demand);
  logger (InfoChangeFactors factor_demand factor_unbalancedness factor_flow
            weighted_change);;
  let weighted_change :=
    if Qle_bool fee_rate 2e-6 then 1 + (weighted_change - 1) * 3
    else weighted_change in
  let fee_rate_new := fee_rate * weighted_change in
  let fee_rate_new := py_max min_fee_rate fee_rate_new in
  logger (InfoFeeRate fee_rate fee_rate_new);;
  logger (DebugStats channel_id total_forwarding_in total_forwarding_out
            ub flow fees_sat capacity factor_demand factor_unbalancedness
            factor_flow weighted_change fee_rate fee_rate_new);;
  mret (channel_point channel_data,
        {| base_fee_msat := base_fee_msat;
           fee_rate := fee_rate_new;
           cltv := cltv |}).

(** The loop over [channels.items()], in the order of the dict;
    [new_policies] is the dict [channel_fee_policies] built so far. *)
Fixpoint fee_rate_change_loop (self : FeeSetter)
    (channels_forwarding_stats : gmap Z ChannelStats)
    (base_fee_msat cltv : Z) (min_fee_rate : Q)
    (items : list (Z * ChannelData))
    (new_policies : gmap string FeePolicy) : M (gmap string FeePolicy) :=
  match items with
  | [] => mret new_policies
  | (channel_id, channel_data) :: items' =>
      '(key, policy) ← fee_rate_change_channel self channels_forwarding_stats
                          base_fee_msat cltv min_fee_rate
                          channel_id channel_data;
      fee_rate_change_loop self channels_forwarding_stats
        base_fee_msat cltv min_fee_rate items'
        (<[key := policy]> new_policies)
  end.

Definition fee_rate_change (self : FeeSetter)
    (channels : list (Z * ChannelData))
    (channels_forwarding_stats : gmap Z ChannelStats)
    (base_fee_msat cltv : Z) (min_fee_rate : Q) : M (gmap string FeePolicy) :=
  logger InfoDetermining;;
  logger (InfoBaseFeeCltv base_fee_msat cltv);;
  fee_rate_change_loop self channels_forwarding_stats
    base_fee_msat cltv min_fee_rate channels ∅.

(** [set_fees_demand].  The collaborators are taken by what they return:
    [channels] is [node.get_all_channels()], [channels_forwarding_stats] is
    [forwarding_analyzer.get_forwarding_statistics_channels()] for the
    window, [answer] is [yes_no_question()].  The result is the argument of
    [node.set_channel_fee_policies] when it is called, [None] when the
    policies are not set. *)
Definition set_fees_demand (self : FeeSetter)
    (channels : list (Z * ChannelData))
    (channels_forwarding_stats : gmap Z ChannelStats)
    (answer : bool)
    (cltv base_fee_msat : Z) (from_days_ago min_fee_rate : Q)
    (reckless : bool) : M (option (gmap string FeePolicy)) :=
  let self :=
    {| channel_fee_policies := channel_fee_policies self;
       time_interval_days := Some from_days_ago |} in
  new_policies ← fee_rate_change self channels channels_forwarding_stats
                   base_fee_msat cltv min_fee_rate;
  if negb reckless then
    logger InfoAskConfirmation;;
    if answer then
      logger InfoHaveSet;;
      mret (Some new_policies)
    else
      logger InfoDidntSet;;
      mret None
  else
    logger InfoHaveSet;;
    mret (Some new_policies).

(** ** Notions used in the statements *)

(** What a computation logs and returns does not depend on the log it
    starts from. *)
Definition appends {A : Type} (m : M A) : Prop :=
  forall log, m log = (log ++ log_of m [], outcome m []).

(** Two readings of the statistics agree on the flow and on the volumes;
    the fee income and the number of forwardings are free. *)
Definition same_signals (r1 r2 : Q * Q * Z * Z * Z * Z) : Prop :=
  let '(flow1, _, t_in1, t_out1, total1, _) := r1 in
  let '(flow2, _, t_in2, t_out2, total2, _) := r2 in
  flow1 = flow2 /\ t_in1 = t_in2 /\ t_out1 = t_out2 /\ total1 = total2.

(** Two channels agree on the channel point and on the unbalancedness; the
    capacity is free. *)
Definition same_channel (item1 item2 : Z * ChannelData) : Prop :=
  channel_point item1.2 = channel_point item2.2 /\
  unbalancedness item1.2 = unbalancedness item2.2.

(** Two statistics records agree on everything but [fees_total] and
    [number_forwardings]. *)
Definition same_forwarding (s1 s2 : ChannelStats) : Prop :=
  flow_direction s1 = flow_direction s2 /\
  total_forwarding_in s1 = total_forwarding_in s2 /\
  total_forwarding_out s1 = total_forwarding_out s2.

(** A statistics record of a channel without any activity. *)
Definition zero_stats : ChannelStats :=
  {| flow_direction := 0; fees_total := 0;
     total_forwarding_in := 0; total_forwarding_out := 0;
     number_forwardings := 0 |}.

(** ** Sample data *)

Module Sample.

Definition policy_100 : FeePolicy :=
  {| base_fee_msat := 1000; fee_rate := 0.000100; cltv := 40 |}.

Definition idle_channel : ChannelData :=
  {| channel_point := "a:0"; capacity := 1000000; unbalancedness := 0 |}.

Definition other_channel : ChannelData :=
  {| channel_point := "b:1"; capacity := 2000000; unbalancedness := -0.8 |}.

Definition setter : FeeSetter :=
  {| channel_fee_policies := {[ "a:0" := policy_100 ]};
     time_interval_days := Some 7 |}.

Definition setter2 : FeeSetter :=
  {| channel_fee_policies := {[ "a:0" := policy_100; "b:1" := policy_100 ]};
     time_interval_days := Some 7 |}.

Definition busy_stats : ChannelStats :=
  {| flow_direction := 0.5; fees_total := 12000;
     total_forwarding_in := 50000; total_forwarding_out := 150000;
     number_forwardings := 9 |}.

(** A setter whose current fee rate for ["b:1"] is below [2E-6]. *)
Definition policy_small : FeePolicy :=
  {| base_fee_msat := 1000; fee_rate := 0.0000015; cltv := 40 |}.

Definition setter_small : FeeSetter :=
  {| channel_fee_policies := {[ "b:1" := policy_small ]};
     time_interval_days := Some 7 |}.

(** [other_channel] and [busy_stats] with another capacity, fee income
    and number of forwardings. *)
Definition other_channel' : ChannelData :=
  {| channel_point := "b:1"; capacity := 16000000; unbalancedness := -0.8 |}.

Definition busy_stats' : ChannelStats :=
  {| flow_direction := 0.5; fees_total := 990000;
     total_forwarding_in := 50000; total_forwarding_out := 150000;
     number_forwardings := 512 |}.

(** A setter on which [set_fees_demand] has not run yet. *)
Definition setter_fresh : FeeSetter :=
  {| channel_fee_policies := {[ "a:0" := policy_100 ]};
     time_interval_days := None |}.

(** A batch of two channels and the mapping [fee_rate_change] returns for
    it with [setter2] and statistics for the second channel only. *)
Definition batch : list (Z * ChannelData) :=
  [(1%Z, idle_channel); (2%Z, other_channel)].

Definition batch_policies : gmap string FeePolicy :=
  match outcome (fee_rate_change setter2 batch {[ 2%Z := busy_stats ]}
                   40 20 0.000004) [] with
  | inr new_policies => new_policies
  | inl _ => ∅
  end.

End Sample.

(** ** Comparisons, [max] and [min] *)

Lemma Qgt_boolP (a b : Q) : BoolSpec (b < a) (a <= b) (Qgt_bool a b).
Proof.
  unfold Qgt_bool. destruct (Qle_bool a b) eqn:E; simpl; constructor.
  - now apply Qle_bool_iff.
  - apply Qnot_le_lt. intros H. apply Qle_bool_iff in H. congruence.
Qed.

Lemma Qle_boolP (a b : Q) : BoolSpec (a <= b) (b < a) (Qle_bool a b).
Proof.
  destruct (Qle_bool a b) eqn:E; constructor.
  - now apply Qle_bool_iff.
  - apply Qnot_le_lt. intros H. apply Qle_bool_iff in H. congruence.
Qed.

Lemma Qeq_boolP (a b : Q) : BoolSpec (a == b) (~ a == b) (Qeq_bool a b).
Proof.
  destruct (Qeq_bool a b) eqn:E; constructor.
  - now apply Qeq_bool_iff.
  - intros H. apply Qeq_bool_iff in H. congruence.
Qed.

(** Splits on every comparison the embedded code makes. *)
Ltac py_cases :=
  repeat match goal with
    | |- context [Qgt_bool ?a ?b] => destruct (Qgt_boolP a b)
    | |- context [Qle_bool ?a ?b] => destruct (Qle_boolP a b)
    | |- context [Qeq_bool ?a ?b] => destruct (Qeq_boolP a b)
    end.

Lemma py_max_lower (a b : Q) : a <= py_max a b.
Proof. unfold py_max. py_cases; lra. Qed.

Lemma py_max_cases (a b : Q) :
  (b <= a /\ py_max a b = a) \/ (a < b /\ py_max a b = b).
Proof. unfold py_max. py_cases; auto. Qed.

Lemma py_min_upper (a b : Q) : py_min a b <= b.
Proof. unfold py_min. py_cases; lra. Qed.

Lemma py_min_cases (a b : Q) :
  (a <= b /\ py_min a b = a) \/ (b < a /\ py_min a b = b).
Proof. unfold py_min. py_cases; auto. Qed.

(** Division by a constant is a multiplication, which linear arithmetic
    understands. *)
Lemma Qdiv_by_constant (x c c' : Q) : c * c' == 1 -> x / c == x * c'.
Proof.
  intros H.
  assert (Hc : ~ c == 0) by (intros E; rewrite E in H; lra).
  rewrite <- (Qmult_1_r (x / c)), <- H. field. exact Hc.
Qed.

(** Names every quotient by the constant [c] and records its value. *)
Ltac div_const c :=
  let c' := eval vm_compute in (Qred (/ c)) in
  repeat match goal with
    | |- context [?x / c] =>
        let q := fresh "q" in
        set (q := x / c) in *;
        assert (q == x * c')
          by (subst q; apply Qdiv_by_constant; reflexivity);
        clearbody q
    | H : context [?x / c] |- _ =>
        let q := fresh "q" in
        set (q := x / c) in *;
        assert (q == x * c')
          by (subst q; apply Qdiv_by_constant; reflexivity);
        clearbody q
    end.

(** ** The factors *)

(** Unfolds a factor function and decides the resulting linear cases. *)
Ltac factor_cases :=
  unfold factor_unbalancedness, factor_flow, py_min, py_max;
  py_cases; lra.

Lemma factor_unbalancedness_inside (ub : Q) :
  -1 <= ub <= 1 -> factor_unbalancedness ub == 1 + ub * 0.5.
Proof. intros [Hlo Hhi]. factor_cases. Qed.

Lemma factor_flow_inside (flow : Q) :
  -1 <= flow <= 1 -> factor_flow flow == 1 + flow * 0.5.
Proof. intros [Hlo Hhi]. factor_cases. Qed.

Lemma factor_unbalancedness_bounds (ub : Q) :
  0.5 <= factor_unbalancedness ub <= 1.5.
Proof. factor_cases. Qed.

Lemma factor_flow_bounds (flow : Q) : 0.5 <= factor_flow flow <= 1.5.
Proof. factor_cases. Qed.

Lemma factor_unbalancedness_mono (a b : Q) :
  a <= b -> factor_unbalancedness a <= factor_unbalancedness b.
Proof. intros Hab. factor_cases. Qed.

Lemma factor_flow_mono (a b : Q) : a <= b -> factor_flow a <= factor_flow b.
Proof. intros Hab. factor_cases. Qed.

(** The two functions agree as functions, whatever the argument. *)
Lemma factor_flow_unbalancedness (x : Q) :
  factor_flow x == factor_unbalancedness x.
Proof. factor_cases. Qed.

(** C3.  For [x] and [y] in [[-1, 1]] with [x <= y]: [factor_unbalancedness]
    and [factor_flow] take their values in [[0.5, 1.5]], are monotonic
    non-decreasing, and both are [1.0] at [0]. *)
Theorem factors_range_monotone_neutral (x y : Q) :
  -1 <= x -> x <= y -> y <= 1 ->
  (0.5 <= factor_unbalancedness x <= 1.5 /\
   factor_unbalancedness x <= factor_unbalancedness y /\
   factor_unbalancedness 0 == 1.0) /\
  (0.5 <= factor_flow x <= 1.5 /\
   factor_flow x <= factor_flow y /\
   factor_flow 0 == 1.0).
Proof.
  intros _ Hxy _.
  pose proof (factor_unbalancedness_bounds x).
  pose proof (factor_unbalancedness_mono x y Hxy).
  pose proof (factor_flow_bounds x).
  pose proof (factor_flow_mono x y Hxy).
  assert (factor_unbalancedness 0 == 1.0) by reflexivity.
  assert (factor_flow 0 == 1.0) by reflexivity.
  tauto.
Qed.

Lemma factors_range_monotone_neutral_witness :
  (0.5 <= factor_unbalancedness (-0.5) <= 1.5 /\
   factor_unbalancedness (-0.5) <= factor_unbalancedness 0.5 /\
   factor_unbalancedness 0 == 1.0) /\
  (0.5 <= factor_flow (-0.5) <= 1.5 /\
   factor_flow (-0.5) <= factor_flow 0.5 /\
   factor_flow 0 == 1.0).
Proof.
  apply (factors_range_monotone_neutral (-0.5) 0.5); vm_compute; discriminate.
Defined.

(** ** Running computations *)

Lemma mbind_run {A B : Type} (m : M A) (f : A -> M B) (log : list LogRecord) :
  (m ≫= f) log =
  match m log with
  | (log', inr a) => f a log'
  | (log', inl e) => (log', inl e)
  end.
Proof. reflexivity. Qed.

Lemma mret_run {A : Type} (a : A) (log : list LogRecord) :
  (mret a : M A) log = (log, inr a).
Proof. reflexivity. Qed.

Lemma py_div_run (a b : Q) (log : list LogRecord) :
  ~ b == 0 -> py_div a b log = (log, inr (a / b)).
Proof. intros Hb. unfold py_div. py_cases; [contradiction | reflexivity]. Qed.

Lemma py_div_zero (a b : Q) (log : list LogRecord) :
  b == 0 -> py_div a b log = (log, inl ZeroDivisionError).
Proof. intros Hb. unfold py_div. py_cases; [reflexivity | contradiction]. Qed.

(** The value [factor_demand] computes for a forwarded amount and a window
    of [days] days, read off its [return]. *)
Lemma factor_demand_run (self : FeeSetter) (days amount_out : Q)
    (capacity : Z) (log : list LogRecord) :
  time_interval_days self = Some days -> ~ days == 0 ->
  factor_demand self amount_out capacity log =
  (log ++ [InfoOutward amount_out],
   inr (py_min (0.25 * (amount_out / days / (100000 / 7) - 1) + 1)
               (1 + 1.00))).
Proof.
  intros Hd Hnz. unfold factor_demand, get_time_interval_days, logger.
  rewrite Hd. unfold mbind, M_bind, mret, M_ret.
  rewrite (py_div_run _ _ _ Hnz). reflexivity.
Qed.

Lemma factor_demand_zero_days (self : FeeSetter) (days amount_out : Q)
    (capacity : Z) (log : list LogRecord) :
  time_interval_days self = Some days -> days == 0 ->
  factor_demand self amount_out capacity log =
  (log ++ [InfoOutward amount_out], inl ZeroDivisionError).
Proof.
  intros Hd Hz. unfold factor_demand, get_time_interval_days, logger.
  rewrite Hd. unfold mbind, M_bind, mret, M_ret.
  rewrite (py_div_zero _ _ _ Hz). reflexivity.
Qed.

Lemma factor_demand_no_days (self : FeeSetter) (amount_out : Q)
    (capacity : Z) (log : list LogRecord) :
  time_interval_days self = None ->
  factor_demand self amount_out capacity log =
  (log ++ [InfoOutward amount_out],
   inl (AttributeError "time_interval_days")).
Proof.
  intros Hd. unfold factor_demand, get_time_interval_days, logger.
  rewrite Hd. reflexivity.
Qed.

(** C4.  With a window of [lookback_days > 0] days, [factor_demand] returns
    for every amount [c = 0.25 * ((amount_out / lookback_days) /
    (100000 / 7) - 1) + 1] when [c <= 2.0] and [2.0] otherwise, so at most
    [2.0]; for the amount [0] it returns [0.75]; and nothing bounds the
    result from below: it falls under any given number for some amount. *)
Theorem factor_demand_clamped_above (self : FeeSetter)
    (lookback_days : Q) (capacity : Z) (log : list LogRecord) :
  time_interval_days self = Some lookback_days -> 0 < lookback_days ->
  (forall amount_out : Q,
     exists r : Q,
       outcome (factor_demand self amount_out capacity) log = inr r /\
       r <= 2.0 /\
       let c := 0.25 * ((amount_out / lookback_days) / (100000 / 7) - 1) + 1 in
       (c <= 2.0 -> r == c) /\ (2.0 <= c -> r == 2.0)) /\
  (exists r0 : Q,
     outcome (factor_demand self 0 capacity) log = inr r0 /\ r0 == 0.75) /\
  (forall bound : Q,
     exists (amount_out r : Q),
       outcome (factor_demand self amount_out capacity) log = inr r /\
       r < bound).
Proof.
  intros Hd Hpos.
  assert (Hnz : ~ lookback_days == 0) by lra.
  unfold outcome. split; [| split].
  - intros amount_out. eexists.
    rewrite (factor_demand_run _ _ _ _ _ Hd Hnz). simpl.
    split; [reflexivity |]. unfold py_min. cbv zeta.
    py_cases; (split; [| split]); intros; lra.
  - eexists. rewrite (factor_demand_run _ _ _ _ _ Hd Hnz). simpl.
    split; [reflexivity |]. unfold py_min.
    assert (H0 : 0 / lookback_days == 0) by (field; exact Hnz).
    revert H0. generalize (0 / lookback_days). intros q H0.
    py_cases; div_const (100000 / 7); lra.
  - intros bound.
    exists ((bound - 1) * 4 * (100000 / 7) * lookback_days). eexists.
    rewrite (factor_demand_run _ _ _ _ _ Hd Hnz). simpl.
    split; [reflexivity |]. unfold py_min.
    assert (H0 : (bound - 1) * 4 * (100000 / 7) * lookback_days
                 / lookback_days / (100000 / 7) == (bound - 1) * 4)
      by (field; exact Hnz).
    revert H0.
    generalize ((bound - 1) * 4 * (100000 / 7) * lookback_days / lookback_days).
    intros q H0. py_cases; div_const (100000 / 7); lra.
Qed.

Lemma factor_demand_clamped_above_witness :
  (forall amount_out : Q,
     exists r : Q,
       outcome (factor_demand Sample.setter amount_out 1000000) [] = inr r /\
       r <= 2.0 /\
       let c := 0.25 * ((amount_out / 7) / (100000 / 7) - 1) + 1 in
       (c <= 2.0 -> r == c) /\ (2.0 <= c -> r == 2.0)) /\
  (exists r0 : Q,
     outcome (factor_demand Sample.setter 0 1000000) [] = inr r0 /\
     r0 == 0.75) /\
  (forall bound : Q,
     exists (amount_out r : Q),
       outcome (factor_demand Sample.setter amount_out 1000000) [] = inr r /\
       r < bound).
Proof.
  apply (factor_demand_clamped_above Sample.setter 7 1000000 []).
  - reflexivity.
  - reflexivity.
Defined.

(** ** One channel *)

(** [total_forwarding] is the sum of the two volumes, with or without a
    statistics record. *)
Lemma read_channel_stats_total (channel_stats : option ChannelStats)
    (flow fees_sat : Q) (t_in t_out total count : Z) :
  read_channel_stats channel_stats = (flow, fees_sat, t_in, t_out, total, count) ->
  total = (t_in + t_out)%Z.
Proof.
  destruct channel_stats as [s |]; simpl; intros H; inversion H; reflexivity.
Qed.

(** The sum of the weights is never zero. *)
Lemma weights_sum_nonzero (total : Z) :
  ~ 1.0 + (if (total =? 0)%Z then 0 else 0.6) + 1.2 == 0.
Proof. destruct (total =? 0)%Z; intros H; vm_compute in H; discriminate. Qed.

(** A channel without a current policy: the lookup raises before anything
    is logged for the channel. *)
Lemma fee_rate_change_channel_no_policy (self : FeeSetter)
    (stats : gmap Z ChannelStats) (base_fee_msat cltv : Z) (min_fee_rate : Q)
    (channel_id : Z) (channel_data : ChannelData) (log : list LogRecord) :
  channel_fee_policies self !! channel_point channel_data = None ->
  fee_rate_change_channel self stats base_fee_msat cltv min_fee_rate
    channel_id channel_data log =
  (log, inl (KeyError (channel_point channel_data))).
Proof.
  intros Hp. unfold fee_rate_change_channel, get_channel_fee_policy.
  destruct (read_channel_stats (stats !! channel_id))
    as [[[[[flow fees_sat] t_in] t_out] total] count].
  rewrite Hp. reflexivity.
Qed.

(** A channel with a current policy and a window that is not zero: the
    whole run of the loop body, log and result. *)
Lemma fee_rate_change_channel_run (self : FeeSetter)
    (stats : gmap Z ChannelStats) (base_fee_msat cltv : Z) (min_fee_rate : Q)
    (channel_id : Z) (channel_data : ChannelData) (log : list LogRecord)
    (policy : FeePolicy) (days : Q)
    (flow fees_sat : Q) (t_in t_out total count : Z) :
  channel_fee_policies self !! channel_point channel_data = Some policy ->
  time_interval_days self = Some days -> ~ days == 0 ->
  read_channel_stats (stats !! channel_id) =
    (flow, fees_sat, t_in, t_out, total, count) ->
  let ub := unbalancedness channel_data in
  let f_demand :=
    py_min (0.25 * (inject_Z t_out / days / (100000 / 7) - 1) + 1) (1 + 1.00) in
  let f_ub := factor_unbalancedness ub in
  let f_flow := factor_flow flow in
  let wgt_flow := if (total =? 0)%Z then 0 else 0.6 in
  let change :=
    (1.0 * f_ub + wgt_flow * f_flow + 1.2 * f_demand)
    / (1.0 + wgt_flow + 1.2) in
  let change' :=
    if Qle_bool (fee_rate policy) 2e-6 then 1 + (change - 1) * 3 else change in
  let fee_rate_new := py_max min_fee_rate (fee_rate policy * change') in
  fee_rate_change_channel self stats base_fee_msat cltv min_fee_rate
    channel_id channel_data log =
  (log ++ [InfoNewPolicy channel_id;
           InfoInputs ub flow fees_sat (capacity channel_data) count t_in t_out;
           InfoOutward (inject_Z t_out);
           InfoChangeFactors f_demand f_ub f_flow change;
           InfoFeeRate (fee_rate policy) fee_rate_new;
           DebugStats channel_id t_in t_out ub flow fees_sat
             (capacity channel_data) f_demand f_ub f_flow change'
             (fee_rate policy) fee_rate_new],
   inr (channel_point channel_data,
        {| base_fee_msat := base_fee_msat;
           fee_rate := fee_rate_new;
           cltv := cltv |})).
Proof.
  intros Hp Hd Hnz Hs. cbv zeta.
  unfold fee_rate_change_channel, get_channel_fee_policy.
  rewrite Hs, Hp. unfold mbind, M_bind, mret, M_ret, logger.
  rewrite (factor_demand_run _ _ _ _ _ Hd Hnz).
  rewrite (py_div_run _ _ _ (weights_sum_nonzero total)).
  rewrite <- !app_assoc. reflexivity.
Qed.

(** A channel with a current policy and no usable window: [factor_demand]
    raises. *)
Lemma fee_rate_change_channel_no_window (self : FeeSetter)
    (stats : gmap Z ChannelStats) (base_fee_msat cltv : Z) (min_fee_rate : Q)
    (channel_id : Z) (channel_data : ChannelData) (log : list LogRecord)
    (policy : FeePolicy) :
  channel_fee_policies self !! channel_point channel_data = Some policy ->
  match time_interval_days self with
  | Some days => days == 0
  | None => True
  end ->
  exists e,
    outcome (fee_rate_change_channel self stats base_fee_msat cltv
               min_fee_rate channel_id channel_data) log = inl e /\
    e = match time_interval_days self with
        | Some _ => ZeroDivisionError
        | None => AttributeError "time_interval_days"
        end.
Proof.
  intros Hp Hd. unfold outcome.
  unfold fee_rate_change_channel, get_channel_fee_policy.
  destruct (read_channel_stats (stats !! channel_id))
    as [[[[[flow fees_sat] t_in] t_out] total] count].
  rewrite Hp. unfold mbind, M_bind, mret, M_ret, logger.
  destruct (time_interval_days self) as [days |] eqn:E.
  - rewrite (factor_demand_zero_days _ _ _ _ _ E Hd). eauto.
  - rewrite (factor_demand_no_days _ _ _ _ E). eauto.
Qed.

(** A channel with a current policy and a window of zero days: the inputs
    and the outward amount are logged, then the division raises. *)
Lemma fee_rate_change_channel_zero_window (self : FeeSetter)
    (stats : gmap Z ChannelStats) (base_fee_msat cltv : Z) (min_fee_rate : Q)
    (channel_id : Z) (channel_data : ChannelData) (log : list LogRecord)
    (policy : FeePolicy) (days : Q)
    (flow fees_sat : Q) (t_in t_out total count : Z) :
  channel_fee_policies self !! channel_point channel_data = Some policy ->
  time_interval_days self = Some days -> days == 0 ->
  read_channel_stats (stats !! channel_id) =
    (flow, fees_sat, t_in, t_out, total, count) ->
  fee_rate_change_channel self stats base_fee_msat cltv min_fee_rate
    channel_id channel_data log =
  (log ++ [InfoNewPolicy channel_id;
           InfoInputs (unbalancedness channel_data) flow fees_sat
             (capacity channel_data) count t_in t_out;
           InfoOutward (inject_Z t_out)],
   inl ZeroDivisionError).
Proof.
  intros Hp Hd Hz Hs.
  unfold fee_rate_change_channel, get_channel_fee_policy.
  rewrite Hs, Hp. unfold mbind, M_bind, mret, M_ret, logger.
  rewrite (factor_demand_zero_days _ _ _ _ _ Hd Hz).
  rewrite <- !app_assoc. reflexivity.
Qed.

(** A returned policy comes from a channel with a current policy and a
    window that is not zero. *)
Lemma fee_rate_change_channel_returns (self : FeeSetter)
    (stats : gmap Z ChannelStats) (base_fee_msat cltv : Z) (min_fee_rate : Q)
    (channel_id : Z) (channel_data : ChannelData) (log : list LogRecord)
    (key : string) (new_policy : FeePolicy) :
  outcome (fee_rate_change_channel self stats base_fee_msat cltv
             min_fee_rate channel_id channel_data) log
    = inr (key, new_policy) ->
  exists policy days,
    channel_fee_policies self !! channel_point channel_data = Some policy /\
    time_interval_days self = Some days /\ ~ days == 0.
Proof.
  intros Hrun.
  destruct (channel_fee_policies self !! channel_point channel_data)
    as [policy |] eqn:Hp.
  - destruct (time_interval_days self) as [days |] eqn:Hd.
    + destruct (Qeq_boolP days 0) as [Hz | Hnz]; [| eauto].
      destruct (fee_rate_change_channel_no_window self stats base_fee_msat
                  cltv min_fee_rate channel_id channel_data log policy Hp)
        as (e & He & _); [rewrite Hd; exact Hz | congruence].
    + destruct (fee_rate_change_channel_no_window self stats base_fee_msat
                  cltv min_fee_rate channel_id channel_data log policy Hp)
        as (e & He & _); [rewrite Hd; exact I | congruence].
  - unfold outcome in Hrun.
    rewrite fee_rate_change_channel_no_policy in Hrun by exact Hp.
    discriminate.
Qed.

(** The policy of one channel: its key, its fee rate and the two fields
    taken from the arguments. *)
Lemma fee_rate_change_channel_policy (self : FeeSetter)
    (stats : gmap Z ChannelStats) (base_fee_msat cltv : Z) (min_fee_rate : Q)
    (channel_id : Z) (channel_data : ChannelData) (log : list LogRecord)
    (key : string) (new_policy : FeePolicy) :
  outcome (fee_rate_change_channel self stats base_fee_msat cltv
             min_fee_rate channel_id channel_data) log
    = inr (key, new_policy) ->
  key = channel_point channel_data /\
  new_policy = {| base_fee_msat := base_fee_msat;
                  fee_rate := fee_rate new_policy;
                  cltv := cltv |} /\
  min_fee_rate <= fee_rate new_policy.
Proof.
  intros Hrun.
  destruct (fee_rate_change_channel_returns _ _ _ _ _ _ _ _ _ _ Hrun)
    as (policy & days & Hp & Hd & Hnz).
  destruct (read_channel_stats (stats !! channel_id))
    as [[[[[flow fees_sat] t_in] t_out] total] count] eqn:Hs.
  unfold outcome in Hrun.
  rewrite (fee_rate_change_channel_run _ _ _ _ _ _ _ _ _ _ _ _ _ _ _ _
             Hp Hd Hnz Hs) in Hrun.
  simpl in Hrun. inversion Hrun; subst; simpl.
  repeat split. apply py_max_lower.
Qed.

(** ** The loop *)

Lemma fee_rate_change_loop_cons (self : FeeSetter)
    (stats : gmap Z ChannelStats) (base_fee_msat cltv : Z) (min_fee_rate : Q)
    (channel_id : Z) (channel_data : ChannelData)
    (items : list (Z * ChannelData)) (acc : gmap string FeePolicy)
    (log : list LogRecord) :
  fee_rate_change_loop self stats base_fee_msat cltv min_fee_rate
    ((channel_id, channel_data) :: items) acc log =
  match fee_rate_change_channel self stats base_fee_msat cltv min_fee_rate
          channel_id channel_data log with
  | (log', inr (key, policy)) =>
      fee_rate_change_loop self stats base_fee_msat cltv min_fee_rate
        items (<[key := policy]> acc) log'
  | (log', inl e) => (log', inl e)
  end.
Proof.
  simpl. unfold mbind, M_bind.
  destruct (fee_rate_change_channel _ _ _ _ _ _ _ log) as [log' [e | [k p]]];
    reflexivity.
Qed.

Lemma fee_rate_change_unfold (self : FeeSetter)
    (channels : list (Z * ChannelData)) (stats : gmap Z ChannelStats)
    (base_fee_msat cltv : Z) (min_fee_rate : Q) (log : list LogRecord) :
  fee_rate_change self channels stats base_fee_msat cltv min_fee_rate log =
  fee_rate_change_loop self stats base_fee_msat cltv min_fee_rate channels ∅
    ((log ++ [InfoDetermining]) ++ [InfoBaseFeeCltv base_fee_msat cltv]).
Proof. reflexivity. Qed.

(** Every policy the loop adds respects the floor. *)
Lemma fee_rate_change_loop_floor (self : FeeSetter)
    (stats : gmap Z ChannelStats) (base_fee_msat cltv : Z) (min_fee_rate : Q)
    (items : list (Z * ChannelData)) :
  forall (acc : gmap string FeePolicy) (log : list LogRecord)
         (new_policies : gmap string FeePolicy),
    map_Forall (fun _ p => min_fee_rate <= fee_rate p) acc ->
    outcome (fee_rate_change_loop self stats base_fee_msat cltv min_fee_rate
               items acc) log = inr new_policies ->
    map_Forall (fun _ p => min_fee_rate <= fee_rate p) new_policies.
Proof.
  induction items as [| [channel_id channel_data] items IH];
    intros acc log new_policies Hacc Hrun.
  - unfold outcome in Hrun. simpl in Hrun.
    inversion Hrun; subst. exact Hacc.
  - unfold outcome in Hrun. rewrite fee_rate_change_loop_cons in Hrun.
    destruct (fee_rate_change_channel self stats base_fee_msat cltv
                min_fee_rate channel_id channel_data log)
      as [log' [e | [key policy]]] eqn:Hbody; [discriminate |].
    apply (IH (<[key := policy]> acc) log'); [| exact Hrun].
    apply map_Forall_insert_2; [| exact Hacc].
    eapply fee_rate_change_channel_policy.
    unfold outcome. rewrite Hbody. reflexivity.
Qed.

(** The loop keeps what is already stored and stores a policy under the
    channel point of every channel it goes through. *)
Lemma fee_rate_change_loop_keys (self : FeeSetter)
    (stats : gmap Z ChannelStats) (base_fee_msat cltv : Z) (min_fee_rate : Q)
    (items : list (Z * ChannelData)) :
  forall (acc : gmap string FeePolicy) (log : list LogRecord)
         (new_policies : gmap string FeePolicy),
    outcome (fee_rate_change_loop self stats base_fee_msat cltv min_fee_rate
               items acc) log = inr new_policies ->
    (forall key, is_Some (acc !! key) -> is_Some (new_policies !! key)) /\
    (forall channel_id channel_data,
       (channel_id, channel_data) ∈ items ->
       is_Some (new_policies !! channel_point channel_data)).
Proof.
  induction items as [| [channel_id channel_data] items IH];
    intros acc log new_policies Hrun.
  - unfold outcome in Hrun. simpl in Hrun. inversion Hrun; subst.
    split; [auto |]. intros c d Hin. inversion Hin.
  - unfold outcome in Hrun. rewrite fee_rate_change_loop_cons in Hrun.
    destruct (fee_rate_change_channel self stats base_fee_msat cltv
                min_fee_rate channel_id channel_data log)
      as [log' [e | [key policy]]] eqn:Hbody; [discriminate |].
    destruct (IH _ _ _ Hrun) as [Hkeep Hnew].
    assert (Hkey : key = channel_point channel_data).
    { eapply fee_rate_change_channel_policy.
      unfold outcome. rewrite Hbody. reflexivity. }
    split.
    + intros k Hk. apply Hkeep.
      destruct (decide (key = k)) as [-> | Hne].
      * rewrite lookup_insert_eq. eauto.
      * rewrite lookup_insert_ne by exact Hne. exact Hk.
    + intros c d Hin. apply elem_of_cons in Hin as [Heq | Hin].
      * inversion Heq; subst. apply Hkeep.
        rewrite lookup_insert_eq. eauto.
      * eapply Hnew. exact Hin.
Qed.

(** C1.  When [fee_rate_change] returns, every policy of the returned
    mapping has a fee rate of at least [min_fee_rate], and every channel of
    the batch has such a policy under its channel point. *)
Theorem fee_rate_change_floor (self : FeeSetter)
    (channels : list (Z * ChannelData)) (stats : gmap Z ChannelStats)
    (base_fee_msat cltv : Z) (min_fee_rate : Q) (log : list LogRecord)
    (new_policies : gmap string FeePolicy) :
  outcome (fee_rate_change self channels stats base_fee_msat cltv
             min_fee_rate) log = inr new_policies ->
  (forall key policy,
     new_policies !! key = Some policy -> min_fee_rate <= fee_rate policy) /\
  (forall channel_id channel_data,
     (channel_id, channel_data) ∈ channels ->
     exists policy,
       new_policies !! channel_point channel_data = Some policy /\
       min_fee_rate <= fee_rate policy).
Proof.
  intros Hrun. unfold outcome in Hrun. rewrite fee_rate_change_unfold in Hrun.
  assert (Hfloor : map_Forall (fun _ p => min_fee_rate <= fee_rate p)
                     new_policies).
  { eapply fee_rate_change_loop_floor; [| exact Hrun].
    apply map_Forall_empty. }
  split.
  - intros key policy Hk. exact (Hfloor key policy Hk).
  - intros channel_id channel_data Hin.
    destruct (fee_rate_change_loop_keys _ _ _ _ _ _ _ _ _ Hrun) as [_ Hnew].
    destruct (Hnew _ _ Hin) as [policy Hk].
    exists policy. split; [exact Hk | exact (Hfloor _ _ Hk)].
Qed.

Lemma fee_rate_change_floor_witness :
  exists new_policies,
    outcome (fee_rate_change Sample.setter2
               [(1%Z, Sample.idle_channel); (2%Z, Sample.other_channel)]
               {[ 2%Z := Sample.busy_stats ]} 40 20 0.000004) []
      = inr new_policies /\
    (forall key policy,
       new_policies !! key = Some policy -> 0.000004 <= fee_rate policy) /\
    (forall channel_id channel_data,
       (channel_id, channel_data)
         ∈ [(1%Z, Sample.idle_channel); (2%Z, Sample.other_channel)] ->
       exists policy,
         new_policies !! channel_point channel_data = Some policy /\
         0.000004 <= fee_rate policy).
Proof.
  eexists. split; [vm_compute; reflexivity |].
  apply (fee_rate_change_floor Sample.setter2
           [(1%Z, Sample.idle_channel); (2%Z, Sample.other_channel)]
           {[ 2%Z := Sample.busy_stats ]} 40 20 0.000004 []).
  vm_compute. reflexivity.
Defined.

(** ** The change of one channel's fee rate *)

Section OneChannel.

Context (self : FeeSetter) (stats : gmap Z ChannelStats).
Context (base_fee_msat cltv : Z) (min_fee_rate : Q).
Context (channel_id : Z) (channel_data : ChannelData).
Context (log : list LogRecord).
Context (policy : FeePolicy) (days : Q).
Context (flow fees_sat : Q) (t_in t_out total count : Z).

Hypothesis Hpolicy :
  channel_fee_policies self !! channel_point channel_data = Some policy.
Hypothesis Hdays : time_interval_days self = Some days.
Hypothesis Hnonzero : ~ days == 0.
Hypothesis Hstats :
  read_channel_stats (stats !! channel_id) =
    (flow, fees_sat, t_in, t_out, total, count).

Let run : M (string * FeePolicy) :=
  fee_rate_change_channel self stats base_fee_msat cltv min_fee_rate
    channel_id channel_data.

(** C5.  The weighted change logged for a channel is
    [(wgt_ub * factor_unbalancedness + wgt_flow * factor_flow +
      wgt_demand * factor_demand) / (wgt_ub + wgt_flow + wgt_demand)]
    over the three factors of the channel, with [wgt_demand = 1.2],
    [wgt_ub = 1.0] and [wgt_flow = 0.6], except that [wgt_flow] is [0]
    exactly when the forwarded volume, in plus out, is zero. *)
Theorem weighted_change_weights :
  exists (f_demand wgt_flow change : Q) (records : list LogRecord),
    outcome (factor_demand self (inject_Z t_out) (capacity channel_data)) log
      = inr f_demand /\
    log_of run log = log ++ records /\
    InfoChangeFactors f_demand
      (factor_unbalancedness (unbalancedness channel_data))
      (factor_flow flow) change ∈ records /\
    (wgt_flow == 0 <-> (t_in + t_out = 0)%Z) /\
    ((t_in + t_out <> 0)%Z -> wgt_flow = 0.6) /\
    change =
      (1.0 * factor_unbalancedness (unbalancedness channel_data) +
       wgt_flow * factor_flow flow +
       1.2 * f_demand) / (1.0 + wgt_flow + 1.2).
Proof.
  pose proof (read_channel_stats_total _ _ _ _ _ _ _ Hstats) as Htotal.
  unfold outcome, log_of, run.
  rewrite (factor_demand_run _ _ _ _ _ Hdays Hnonzero).
  rewrite (fee_rate_change_channel_run _ _ _ _ _ _ _ _ _ _ _ _ _ _ _ _
             Hpolicy Hdays Hnonzero Hstats).
  cbv zeta. simpl fst. simpl snd.
  eexists _, (if (total =? 0)%Z then 0 else 0.6), _, _.
  split; [reflexivity |]. split; [reflexivity |].
  split; [do 3 apply list_elem_of_further; apply list_elem_of_here |].
  rewrite <- Htotal.
  destruct (Z.eqb_spec total 0) as [Hz | Hnz].
  - split; [| split]; [| contradiction | reflexivity].
    split; [intros _; exact Hz | intros _; reflexivity].
  - split; [| split]; [| reflexivity | reflexivity].
    split; [intros H; vm_compute in H; discriminate | contradiction].
Qed.

(** C6.  The new fee rate of a channel is the current one times the
    weighted change, floored by [min_fee_rate]; the weighted change is the
    weighted mean of the three factors of the channel, the value that is
    logged, and when the current fee rate is at most [2e-6] it is replaced
    by [1 + (weighted_change - 1) * 3] before the multiplication; when the
    current fee rate is above [2e-6] it is used as it is. *)
Theorem small_fee_rate_amplified :
  exists (f_demand change : Q) (records : list LogRecord)
         (new_policy : FeePolicy),
    outcome (factor_demand self (inject_Z t_out) (capacity channel_data)) log
      = inr f_demand /\
    change =
      (1.0 * factor_unbalancedness (unbalancedness channel_data) +
       (if (t_in + t_out =? 0)%Z then 0 else 0.6) * factor_flow flow +
       1.2 * f_demand)
      / (1.0 + (if (t_in + t_out =? 0)%Z then 0 else 0.6) + 1.2) /\
    run log = (log ++ records,
               inr (channel_point channel_data, new_policy)) /\
    InfoChangeFactors f_demand
      (factor_unbalancedness (unbalancedness channel_data))
      (factor_flow flow) change ∈ records /\
    (fee_rate policy <= 2e-6 ->
     fee_rate new_policy =
       py_max min_fee_rate (fee_rate policy * (1 + (change - 1) * 3))) /\
    (2e-6 < fee_rate policy ->
     fee_rate new_policy =
       py_max min_fee_rate (fee_rate policy * change)).
Proof.
  pose proof (read_channel_stats_total _ _ _ _ _ _ _ Hstats) as Htotal.
  unfold outcome, run.
  rewrite (factor_demand_run _ _ _ _ _ Hdays Hnonzero).
  rewrite (fee_rate_change_channel_run _ _ _ _ _ _ _ _ _ _ _ _ _ _ _ _
             Hpolicy Hdays Hnonzero Hstats).
  cbv zeta. simpl snd. rewrite <- Htotal.
  eexists _, _, _, _.
  split; [reflexivity |]. split; [reflexivity |]. split; [reflexivity |].
  split; [do 3 apply list_elem_of_further; apply list_elem_of_here |].
  simpl. destruct (Qle_boolP (fee_rate policy) 2e-6) as [Hle | Hgt].
  - split; [reflexivity | intros H; lra].
  - split; [intros H; lra | reflexivity].
Qed.

End OneChannel.

Lemma weighted_change_weights_witness :
  exists (f_demand wgt_flow change : Q) (records : list LogRecord),
    outcome (factor_demand Sample.setter2 (inject_Z 150000)
               (capacity Sample.other_channel)) []
      = inr f_demand /\
    log_of (fee_rate_change_channel Sample.setter2
              {[ 2%Z := Sample.busy_stats ]} 40 20 0.000004
              2 Sample.other_channel) [] = [] ++ records /\
    InfoChangeFactors f_demand
      (factor_unbalancedness (unbalancedness Sample.other_channel))
      (factor_flow 0.5) change ∈ records /\
    (wgt_flow == 0 <-> (50000 + 150000 = 0)%Z) /\
    ((50000 + 150000 <> 0)%Z -> wgt_flow = 0.6) /\
    change =
      (1.0 * factor_unbalancedness (unbalancedness Sample.other_channel) +
       wgt_flow * factor_flow 0.5 +
       1.2 * f_demand) / (1.0 + wgt_flow + 1.2).
Proof.
  apply (weighted_change_weights Sample.setter2
           {[ 2%Z := Sample.busy_stats ]} 40 20 0.000004
           2 Sample.other_channel [] Sample.policy_100 7
           0.5 (inject_Z 12000 / 1000) 50000 150000 200000 9).
  - reflexivity.
  - reflexivity.
  - intros H; vm_compute in H; discriminate.
  - reflexivity.
Defined.

Lemma small_fee_rate_amplified_witness :
  exists new_policy : FeePolicy,
    outcome (fee_rate_change_channel Sample.setter_small
               {[ 2%Z := Sample.busy_stats ]} 40 20 0.0000001
               2 Sample.other_channel) []
      = inr (channel_point Sample.other_channel, new_policy) /\
    fee_rate new_policy == 0.0000015 * (1 + ((27 # 28) - 1) * 3) /\
    ~ fee_rate new_policy == 0.0000015 * (27 # 28).
Proof.
  destruct (small_fee_rate_amplified Sample.setter_small
              {[ 2%Z := Sample.busy_stats ]} 40 20 0.0000001
              2 Sample.other_channel [] Sample.policy_small 7
              0.5 (inject_Z 12000 / 1000) 50000 150000 200000 9)
    as (f_demand & change & records & new_policy
        & Hdemand & Hchange & Hrun & _ & Hsmall & _).
  - reflexivity.
  - reflexivity.
  - intros H; vm_compute in H; discriminate.
  - reflexivity.
  - exists new_policy.
    split; [unfold outcome; rewrite Hrun; reflexivity |].
    rewrite Hsmall by (vm_compute; discriminate).
    vm_compute in Hdemand. injection Hdemand as <-.
    subst change.
    split; [vm_compute; reflexivity | intros H; vm_compute in H; discriminate].
Defined.

(** ** An idle, balanced channel *)

(** The threshold [2E-6] of the small-fee rule, as a plain fraction. *)
Lemma small_fee_threshold : 2e-6 == 0.000002.
Proof. reflexivity. Qed.

Lemma factor_unbalancedness_neutral (ub : Q) :
  ub == 0 -> factor_unbalancedness ub == 1.
Proof. intros H. factor_cases. Qed.

(** The demand factor of a channel that forwarded nothing outward. *)
Lemma demand_value_idle (days : Q) :
  ~ days == 0 ->
  py_min (0.25 * (inject_Z 0 / days / (100000 / 7) - 1) + 1) (1 + 1.00)
  == 0.75.
Proof.
  intros Hnz.
  assert (H0 : inject_Z 0 / days == 0) by (field; exact Hnz).
  revert H0. generalize (inject_Z 0 / days). intros q H0.
  unfold py_min. py_cases; div_const (100000 / 7); lra.
Qed.

(** The weighted change when the flow has no weight, the balance factor is
    neutral and the demand factor is that of an idle channel. *)
Lemma weighted_change_idle (f_ub f_flow f_demand : Q) :
  f_ub == 1 -> f_demand == 0.75 ->
  (1.0 * f_ub + 0 * f_flow + 1.2 * f_demand) / (1.0 + 0 + 1.2) == 19 # 22.
Proof. intros Hub Hd. div_const (1.0 + 0 + 1.2). lra. Qed.

(** C2, as the code computes it.  For a channel with unbalancedness [0] that
    forwarded nothing, a current fee rate of [0.000100] and a floor of
    [0.000004], the weighted change is [19/22] (the balance factor [1.0]
    with weight [1.0] and the demand factor [0.75] with weight [1.2]) and
    the new fee rate is [0.000100 * 19/22]. *)
Theorem idle_channel_fee_rate (self : FeeSetter) (stats : gmap Z ChannelStats)
    (base_fee_msat cltv : Z) (min_fee_rate : Q)
    (channel_id : Z) (channel_data : ChannelData) (log : list LogRecord)
    (policy : FeePolicy) (days : Q) (flow fees_sat : Q) (total count : Z) :
  channel_fee_policies self !! channel_point channel_data = Some policy ->
  time_interval_days self = Some days -> ~ days == 0 ->
  read_channel_stats (stats !! channel_id) =
    (flow, fees_sat, 0%Z, 0%Z, total, count) ->
  unbalancedness channel_data == 0 ->
  flow == 0 ->
  fee_rate policy == 0.000100 ->
  min_fee_rate == 0.000004 ->
  exists (f_demand f_ub f_flow change : Q) (records : list LogRecord)
         (new_policy : FeePolicy),
    log_of (fee_rate_change_channel self stats base_fee_msat cltv
              min_fee_rate channel_id channel_data) log = log ++ records /\
    InfoChangeFactors f_demand f_ub f_flow change ∈ records /\
    f_demand == 0.75 /\ f_ub == 1.0 /\ f_flow == 1.0 /\
    change == 19 # 22 /\
    outcome (fee_rate_change_channel self stats base_fee_msat cltv
               min_fee_rate channel_id channel_data) log
      = inr (channel_point channel_data, new_policy) /\
    fee_rate new_policy == 0.000100 * (19 # 22).
Proof.
  intros Hp Hd Hnz Hs Hub Hflow Hrate Hmin.
  pose proof (read_channel_stats_total _ _ _ _ _ _ _ Hs) as Htotal.
  simpl in Htotal. subst total.
  unfold outcome, log_of.
  rewrite (fee_rate_change_channel_run _ _ _ _ _ _ _ _ _ _ _ _ _ _ _ _
             Hp Hd Hnz Hs).
  cbv zeta. simpl fst. simpl snd. change (0 =? 0)%Z with true. cbv iota.
  pose proof (demand_value_idle days Hnz) as Hdemand.
  pose proof (factor_unbalancedness_neutral _ Hub) as Hfub.
  pose proof (weighted_change_idle _ (factor_flow flow) _ Hfub Hdemand)
    as Hchange.
  eexists _, _, _, _, _, _.
  split; [reflexivity |].
  split; [do 3 apply list_elem_of_further; apply list_elem_of_here |].
  split; [exact Hdemand |].
  split; [rewrite Hfub; reflexivity |].
  split; [clear - Hflow; factor_cases |].
  split; [exact Hchange |].
  split; [reflexivity |].
  simpl fee_rate.
  destruct (Qle_boolP (fee_rate policy) 2e-6) as [Hle | Hgt];
    [rewrite small_fee_threshold in Hle; lra |].
  revert Hchange. 
  generalize ((1.0 * factor_unbalancedness (unbalancedness channel_data) +
               0 * factor_flow flow +
               1.2 * py_min (0.25 * (inject_Z 0 / days / (100000 / 7) - 1) + 1)
                       (1 + 1.00)) / (1.0 + 0 + 1.2)).
  intros change Hchange.
  assert (Hprod : fee_rate policy * change == 0.000100 * (19 # 22))
    by (rewrite Hrate, Hchange; reflexivity).
  revert Hprod. generalize (fee_rate policy * change). intros prod Hprod.
  assert (Hval : 0.000100 * (19 # 22) == 19 # 220000) by reflexivity.
  unfold py_max. py_cases; lra.
Qed.

Lemma idle_channel_fee_rate_witness :
  exists (f_demand f_ub f_flow change : Q) (records : list LogRecord)
         (new_policy : FeePolicy),
    log_of (fee_rate_change_channel Sample.setter ∅ 40 20 0.000004
              1 Sample.idle_channel) [] = [] ++ records /\
    InfoChangeFactors f_demand f_ub f_flow change ∈ records /\
    f_demand == 0.75 /\ f_ub == 1.0 /\ f_flow == 1.0 /\
    change == 19 # 22 /\
    outcome (fee_rate_change_channel Sample.setter ∅ 40 20 0.000004
               1 Sample.idle_channel) []
      = inr (channel_point Sample.idle_channel, new_policy) /\
    fee_rate new_policy == 0.000100 * (19 # 22).
Proof.
  apply (idle_channel_fee_rate Sample.setter ∅ 40 20 0.000004
           1 Sample.idle_channel [] Sample.policy_100 7 0 0 0 0).
  - reflexivity.
  - reflexivity.
  - intros H; vm_compute in H; discriminate.
  - reflexivity.
  - reflexivity.
  - reflexivity.
  - reflexivity.
  - reflexivity.
Defined.

(** C2, as stated, fails: for the idle, balanced channel of the scenario
    (current fee rate [0.000100], floor [0.000004], no forwarding) the
    logged weighted change is not [1.0] and the new fee rate is not the
    current one. *)
Lemma idle_channel_fee_rate_changes :
  let run :=
    fee_rate_change_channel Sample.setter ∅ 40 20 0.000004
      1 Sample.idle_channel in
  (forall f_demand f_ub f_flow change,
     InfoChangeFactors f_demand f_ub f_flow change ∈ log_of run [] ->
     ~ change == 1.0) /\
  (exists new_policy,
     outcome run [] = inr ("a:0"%string, new_policy) /\
     ~ fee_rate new_policy == 0.000100).
Proof.
  cbv zeta. split.
  - intros f_demand f_ub f_flow change Hin.
    vm_compute in Hin.
    repeat (apply elem_of_cons in Hin as [Hin | Hin]; [try discriminate |]).
    + inversion Hin; subst. intros H; vm_compute in H; discriminate.
    + inversion Hin.
  - eexists. split; [vm_compute; reflexivity |].
    intros H; vm_compute in H; discriminate.
Qed.

(** ** Computations only append to the log *)

Lemma appends_mret {A : Type} (a : A) : appends (mret a : M A).
Proof. intros log. unfold log_of, outcome. simpl. now rewrite app_nil_r. Qed.

Lemma appends_raise {A : Type} (e : Exception) : appends (raise e : M A).
Proof. intros log. unfold log_of, outcome. simpl. now rewrite app_nil_r. Qed.

Lemma appends_logger (r : LogRecord) : appends (logger r).
Proof. intros log. reflexivity. Qed.

Lemma appends_mbind {A B : Type} (m : M A) (f : A -> M B) :
  appends m -> (forall a, appends (f a)) -> appends (m ≫= f).
Proof.
  intros Hm Hf log. unfold log_of, outcome.
  rewrite !mbind_run. rewrite (Hm log), (Hm []).
  destruct (outcome m []) as [e | a]; simpl.
  - reflexivity.
  - rewrite (Hf a (log ++ log_of m [])), (Hf a (log_of m [])).
    simpl. now rewrite app_assoc.
Qed.

Lemma appends_py_div (a b : Q) : appends (py_div a b).
Proof.
  unfold py_div. destruct (Qeq_bool b 0);
    [apply appends_raise | apply appends_mret].
Qed.

Lemma appends_get_time_interval_days (self : FeeSetter) :
  appends (get_time_interval_days self).
Proof.
  unfold get_time_interval_days. destruct (time_interval_days self);
    [apply appends_mret | apply appends_raise].
Qed.

Lemma appends_get_channel_fee_policy (self : FeeSetter) (key : string) :
  appends (get_channel_fee_policy self key).
Proof.
  unfold get_channel_fee_policy. destruct (channel_fee_policies self !! key);
    [apply appends_mret | apply appends_raise].
Qed.

Create HintDb appends.
#[export] Hint Resolve appends_mret appends_raise appends_logger
  appends_py_div appends_get_time_interval_days
  appends_get_channel_fee_policy : appends.

(** Goes through a computation written with [≫=]. *)
Ltac appends_steps :=
  repeat first
    [ solve [auto with appends]
    | apply appends_mbind; [| intros ?]
    | match goal with
      | |- appends (if ?b then _ else _) => destruct b
      | |- appends (let '(_, _) := ?p in _) => destruct p
      end ].

Lemma appends_factor_demand (self : FeeSetter) (amount_out : Q) (capacity : Z) :
  appends (factor_demand self amount_out capacity).
Proof. unfold factor_demand. appends_steps. Qed.

#[export] Hint Resolve appends_factor_demand : appends.

Lemma appends_fee_rate_change_channel (self : FeeSetter)
    (stats : gmap Z ChannelStats) (base_fee_msat cltv : Z) (min_fee_rate : Q)
    (channel_id : Z) (channel_data : ChannelData) :
  appends (fee_rate_change_channel self stats base_fee_msat cltv
             min_fee_rate channel_id channel_data).
Proof.
  unfold fee_rate_change_channel.
  destruct (read_channel_stats (stats !! channel_id))
    as [[[[[flow fees_sat] t_in] t_out] total] count].
  appends_steps.
Qed.

#[export] Hint Resolve appends_fee_rate_change_channel : appends.

Lemma appends_fee_rate_change_loop (self : FeeSetter)
    (stats : gmap Z ChannelStats) (base_fee_msat cltv : Z) (min_fee_rate : Q)
    (items : list (Z * ChannelData)) :
  forall acc : gmap string FeePolicy,
    appends (fee_rate_change_loop self stats base_fee_msat cltv
               min_fee_rate items acc).
Proof.
  induction items as [| [channel_id channel_data] items IH]; intros acc; simpl.
  - apply appends_mret.
  - apply appends_mbind; [auto with appends |].
    intros [key policy]. apply IH.
Qed.

#[export] Hint Resolve appends_fee_rate_change_loop : appends.

Lemma appends_fee_rate_change (self : FeeSetter)
    (channels : list (Z * ChannelData)) (stats : gmap Z ChannelStats)
    (base_fee_msat cltv : Z) (min_fee_rate : Q) :
  appends (fee_rate_change self channels stats base_fee_msat cltv
             min_fee_rate).
Proof. unfold fee_rate_change. appends_steps. Qed.

#[export] Hint Resolve appends_fee_rate_change : appends.

Lemma appends_set_fees_demand (self : FeeSetter)
    (channels : list (Z * ChannelData)) (stats : gmap Z ChannelStats)
    (answer : bool) (cltv base_fee_msat : Z) (from_days_ago min_fee_rate : Q)
    (reckless : bool) :
  appends (set_fees_demand self channels stats answer cltv base_fee_msat
             from_days_ago min_fee_rate reckless).
Proof. unfold set_fees_demand. appends_steps. Qed.

Lemma outcome_any_log {A : Type} (m : M A) (log : list LogRecord) :
  appends m -> outcome m log = outcome m [].
Proof. intros Hm. unfold outcome at 1. now rewrite (Hm log). Qed.

(** The outcome of a sequence. *)
Lemma outcome_mbind {A B : Type} (m : M A) (f : A -> M B) (log : list LogRecord) :
  appends m -> (forall a, appends (f a)) ->
  outcome (m ≫= f) log =
  match outcome m [] with
  | inl e => inl e
  | inr a => outcome (f a) []
  end.
Proof.
  intros Hm Hf. unfold outcome at 1. rewrite mbind_run, (Hm log).
  destruct (outcome m []) as [e | a]; [reflexivity |].
  apply (outcome_any_log (f a)). apply Hf.
Qed.

(** ** What the policies depend on *)

Lemma same_forwarding_signals (o1 o2 : option ChannelStats) :
  option_Forall2 same_forwarding o1 o2 ->
  same_signals (read_channel_stats o1) (read_channel_stats o2).
Proof.
  intros [s1 s2 (Hf & Hi & Ho) |]; simpl.
  - rewrite Hf, Hi, Ho. auto.
  - auto.
Qed.

(** The outcome for one channel is decided by the channel point, the
    unbalancedness, the flow and the volumes. *)
Lemma fee_rate_change_channel_signals (self : FeeSetter)
    (stats1 stats2 : gmap Z ChannelStats) (base_fee_msat cltv : Z)
    (min_fee_rate : Q) (id1 id2 : Z) (data1 data2 : ChannelData)
    (log1 log2 : list LogRecord) :
  same_channel (id1, data1) (id2, data2) ->
  same_signals (read_channel_stats (stats1 !! id1))
               (read_channel_stats (stats2 !! id2)) ->
  outcome (fee_rate_change_channel self stats1 base_fee_msat cltv
             min_fee_rate id1 data1) log1 =
  outcome (fee_rate_change_channel self stats2 base_fee_msat cltv
             min_fee_rate id2 data2) log2.
Proof.
  intros [Hcp Hub] Hsig. simpl in Hcp, Hub.
  destruct (read_channel_stats (stats1 !! id1))
    as [[[[[flow1 fees1] t_in1] t_out1] total1] count1] eqn:Hs1.
  destruct (read_channel_stats (stats2 !! id2))
    as [[[[[flow2 fees2] t_in2] t_out2] total2] count2] eqn:Hs2.
  destruct Hsig as (<- & <- & <- & <-).
  destruct (channel_fee_policies self !! channel_point data1)
    as [policy |] eqn:Hp1.
  - assert (Hp2 : channel_fee_policies self !! channel_point data2
                  = Some policy) by (rewrite <- Hcp; exact Hp1).
    destruct (time_interval_days self) as [days |] eqn:Hd.
    + destruct (Qeq_boolP days 0) as [Hz | Hnz].
      * destruct (fee_rate_change_channel_no_window self stats1 base_fee_msat
                    cltv min_fee_rate id1 data1 log1 policy Hp1)
          as (e1 & -> & ->); [rewrite Hd; exact Hz |].
        destruct (fee_rate_change_channel_no_window self stats2 base_fee_msat
                    cltv min_fee_rate id2 data2 log2 policy Hp2)
          as (e2 & -> & ->); [rewrite Hd; exact Hz |].
        reflexivity.
      * unfold outcome.
        rewrite (fee_rate_change_channel_run _ _ _ _ _ _ _ _ _ _ _ _ _ _ _ _
                   Hp1 Hd Hnz Hs1).
        rewrite (fee_rate_change_channel_run _ _ _ _ _ _ _ _ _ _ _ _ _ _ _ _
                   Hp2 Hd Hnz Hs2).
        simpl. rewrite Hcp, Hub. reflexivity.
    + destruct (fee_rate_change_channel_no_window self stats1 base_fee_msat
                  cltv min_fee_rate id1 data1 log1 policy Hp1)
        as (e1 & -> & ->); [rewrite Hd; exact I |].
      destruct (fee_rate_change_channel_no_window self stats2 base_fee_msat
                  cltv min_fee_rate id2 data2 log2 policy Hp2)
        as (e2 & -> & ->); [rewrite Hd; exact I |].
      reflexivity.
  - assert (Hp2 : channel_fee_policies self !! channel_point data2 = None)
      by (rewrite <- Hcp; exact Hp1).
    unfold outcome.
    rewrite !fee_rate_change_channel_no_policy by assumption.
    simpl. rewrite Hcp. reflexivity.
Qed.

Lemma fee_rate_change_loop_outcome (self : FeeSetter)
    (stats : gmap Z ChannelStats) (base_fee_msat cltv : Z) (min_fee_rate : Q)
    (channel_id : Z) (channel_data : ChannelData)
    (items : list (Z * ChannelData)) (acc : gmap string FeePolicy)
    (log : list LogRecord) :
  outcome (fee_rate_change_loop self stats base_fee_msat cltv min_fee_rate
             ((channel_id, channel_data) :: items) acc) log =
  match outcome (fee_rate_change_channel self stats base_fee_msat cltv
                   min_fee_rate channel_id channel_data) [] with
  | inl e => inl e
  | inr (key, policy) =>
      outcome (fee_rate_change_loop self stats base_fee_msat cltv
                 min_fee_rate items (<[key := policy]> acc)) []
  end.
Proof.
  simpl fee_rate_change_loop. rewrite outcome_mbind.
  - destruct (outcome _ []) as [e | [key policy]]; reflexivity.
  - auto with appends.
  - intros [key policy]. auto with appends.
Qed.

Lemma fee_rate_change_outcome (self : FeeSetter)
    (channels : list (Z * ChannelData)) (stats : gmap Z ChannelStats)
    (base_fee_msat cltv : Z) (min_fee_rate : Q) (log : list LogRecord) :
  outcome (fee_rate_change self channels stats base_fee_msat cltv
             min_fee_rate) log =
  outcome (fee_rate_change_loop self stats base_fee_msat cltv min_fee_rate
             channels ∅) [].
Proof.
  unfold outcome at 1. rewrite fee_rate_change_unfold.
  apply (outcome_any_log (fee_rate_change_loop _ _ _ _ _ _ _)).
  auto with appends.
Qed.

(** The outcome of the loop is decided, channel by channel, by the same
    inputs. *)
Lemma fee_rate_change_loop_signals (self : FeeSetter)
    (stats1 stats2 : gmap Z ChannelStats) (base_fee_msat cltv : Z)
    (min_fee_rate : Q) (items1 items2 : list (Z * ChannelData)) :
  Forall2 (fun item1 item2 =>
             same_channel item1 item2 /\
             same_signals (read_channel_stats (stats1 !! item1.1))
                          (read_channel_stats (stats2 !! item2.1)))
          items1 items2 ->
  forall (acc : gmap string FeePolicy) (log1 log2 : list LogRecord),
    outcome (fee_rate_change_loop self stats1 base_fee_msat cltv
               min_fee_rate items1 acc) log1 =
    outcome (fee_rate_change_loop self stats2 base_fee_msat cltv
               min_fee_rate items2 acc) log2.
Proof.
  induction 1 as [| [id1 data1] [id2 data2] items1 items2 [Hch Hsig] _ IH];
    intros acc log1 log2.
  - reflexivity.
  - rewrite !fee_rate_change_loop_outcome.
    rewrite (fee_rate_change_channel_signals self stats1 stats2 base_fee_msat
               cltv min_fee_rate id1 id2 data1 data2 [] [] Hch Hsig).
    destruct (outcome _ []) as [e | [key policy]]; [reflexivity |].
    apply IH.
Qed.

Lemma same_signals_refl (r : Q * Q * Z * Z * Z * Z) : same_signals r r.
Proof. destruct r as [[[[[flow fees] t_in] t_out] total] count]. simpl. auto. Qed.

(** A missing record reads as the all-zero record does, up to the fee
    income in satoshi, which is [0] against [0 / 1000]. *)
Lemma same_signals_missing_zero :
  same_signals (read_channel_stats None) (read_channel_stats (Some zero_stats)).
Proof. simpl. auto. Qed.

(** ** Channels without forwarding statistics *)

(** C7.  A channel without an entry in the forwarding statistics is read
    as [flow = 0], [fees_sat = 0], volumes [0], total [0] and count [0];
    with a current policy and a window that is not zero its policy is
    computed, from these values; and the outcome, for the channel and for
    the whole batch, is the one obtained with an explicit all-zero record
    for the channel. *)
Theorem missing_stats_as_zero (self : FeeSetter)
    (channels : list (Z * ChannelData)) (stats : gmap Z ChannelStats)
    (base_fee_msat cltv : Z) (min_fee_rate : Q)
    (channel_id : Z) (channel_data : ChannelData) (log : list LogRecord) :
  stats !! channel_id = None ->
  read_channel_stats (stats !! channel_id) = (0, 0, 0%Z, 0%Z, 0%Z, 0%Z) /\
  (forall policy days,
     channel_fee_policies self !! channel_point channel_data = Some policy ->
     time_interval_days self = Some days -> ~ days == 0 ->
     exists records new_policy,
       fee_rate_change_channel self stats base_fee_msat cltv min_fee_rate
         channel_id channel_data log =
       (log ++ records, inr (channel_point channel_data, new_policy)) /\
       InfoInputs (unbalancedness channel_data) 0 0 (capacity channel_data)
         0 0 0 ∈ records) /\
  outcome (fee_rate_change_channel self stats base_fee_msat cltv
             min_fee_rate channel_id channel_data) log =
  outcome (fee_rate_change_channel self (<[channel_id := zero_stats]> stats)
             base_fee_msat cltv min_fee_rate channel_id channel_data) log /\
  outcome (fee_rate_change self channels stats base_fee_msat cltv
             min_fee_rate) log =
  outcome (fee_rate_change self channels (<[channel_id := zero_stats]> stats)
             base_fee_msat cltv min_fee_rate) log.
Proof.
  intros Hnone.
  assert (Hsig : forall id,
             same_signals (read_channel_stats (stats !! id))
               (read_channel_stats (<[channel_id := zero_stats]> stats !! id))).
  { intros id. destruct (decide (channel_id = id)) as [<- | Hne].
    - rewrite lookup_insert_eq, Hnone. exact same_signals_missing_zero.
    - rewrite lookup_insert_ne by exact Hne. apply same_signals_refl. }
  split; [rewrite Hnone; reflexivity |].
  split; [| split].
  - intros policy days Hp Hd Hnz.
    assert (Hs : read_channel_stats (stats !! channel_id)
                 = (0, 0, 0%Z, 0%Z, 0%Z, 0%Z)) by (rewrite Hnone; reflexivity).
    rewrite (fee_rate_change_channel_run _ _ _ _ _ _ _ _ _ _ _ _ _ _ _ _
               Hp Hd Hnz Hs).
    cbv zeta. eexists _, _. split; [reflexivity |].
    apply list_elem_of_further, list_elem_of_here.
  - apply fee_rate_change_channel_signals; [split; reflexivity | apply Hsig].
  - rewrite !fee_rate_change_outcome.
    apply fee_rate_change_loop_signals.
    apply Forall_Forall2_diag, Forall_forall. intros [id data] _.
    split; [split; reflexivity | apply Hsig].
Qed.

Lemma missing_stats_as_zero_witness :
  outcome (fee_rate_change Sample.setter2
             [(1%Z, Sample.idle_channel); (2%Z, Sample.other_channel)]
             {[ 2%Z := Sample.busy_stats ]} 40 20 0.000004) [] =
  outcome (fee_rate_change Sample.setter2
             [(1%Z, Sample.idle_channel); (2%Z, Sample.other_channel)]
             (<[1%Z := zero_stats]> {[ 2%Z := Sample.busy_stats ]})
             40 20 0.000004) [].
Proof.
  apply (missing_stats_as_zero Sample.setter2
           [(1%Z, Sample.idle_channel); (2%Z, Sample.other_channel)]
           {[ 2%Z := Sample.busy_stats ]} 40 20 0.000004
           1 Sample.idle_channel []).
  reflexivity.
Defined.

(** ** Fields that only reach the log *)

(** C10.  Two batches that agree on the setter, the fee arguments, the
    channel points and unbalancedness of the channels, and the flow and
    volumes of the statistics, and that differ at will in [capacity],
    [fees_total] and [number_forwardings], have the same outcome: the same
    mapping of policies, or the same exception. *)
Theorem policies_ignore_capacity_fees_count (self : FeeSetter)
    (channels1 channels2 : list (Z * ChannelData))
    (stats1 stats2 : gmap Z ChannelStats)
    (base_fee_msat cltv : Z) (min_fee_rate : Q)
    (log1 log2 : list LogRecord) :
  Forall2 (fun item1 item2 => item1.1 = item2.1 /\ same_channel item1 item2)
          channels1 channels2 ->
  (forall id, option_Forall2 same_forwarding (stats1 !! id) (stats2 !! id)) ->
  outcome (fee_rate_change self channels1 stats1 base_fee_msat cltv
             min_fee_rate) log1 =
  outcome (fee_rate_change self channels2 stats2 base_fee_msat cltv
             min_fee_rate) log2.
Proof.
  intros Hch Hst. rewrite !fee_rate_change_outcome.
  apply fee_rate_change_loop_signals.
  eapply Forall2_impl; [exact Hch |].
  intros [id1 data1] [id2 data2] [Hid Hsame]. simpl in Hid. subst id2.
  split; [exact Hsame |]. simpl.
  apply same_forwarding_signals, Hst.
Qed.

Lemma policies_ignore_capacity_fees_count_witness :
  outcome (fee_rate_change Sample.setter2
             [(1%Z, Sample.idle_channel); (2%Z, Sample.other_channel)]
             {[ 2%Z := Sample.busy_stats ]} 40 20 0.000004) [] =
  outcome (fee_rate_change Sample.setter2
             [(1%Z, Sample.idle_channel); (2%Z, Sample.other_channel')]
             {[ 2%Z := Sample.busy_stats' ]} 40 20 0.000004)
          [InfoDetermining].
Proof.
  apply (policies_ignore_capacity_fees_count Sample.setter2
           [(1%Z, Sample.idle_channel); (2%Z, Sample.other_channel)]
           [(1%Z, Sample.idle_channel); (2%Z, Sample.other_channel')]
           {[ 2%Z := Sample.busy_stats ]} {[ 2%Z := Sample.busy_stats' ]}
           40 20 0.000004 [] [InfoDetermining]).
  - repeat constructor.
  - intros id. destruct (decide (id = 2%Z)) as [-> | Hne].
    + rewrite !lookup_singleton_eq. repeat constructor.
    + rewrite !lookup_singleton_ne by congruence. constructor.
Defined.

(** ** Failures stop the batch *)

(** With a current policy and a window that is not zero the loop body
    returns a policy for the channel. *)
Lemma fee_rate_change_channel_succeeds (self : FeeSetter)
    (stats : gmap Z ChannelStats) (base_fee_msat cltv : Z) (min_fee_rate : Q)
    (channel_id : Z) (channel_data : ChannelData) (log : list LogRecord)
    (days : Q) :
  is_Some (channel_fee_policies self !! channel_point channel_data) ->
  time_interval_days self = Some days -> ~ days == 0 ->
  exists new_policy,
    outcome (fee_rate_change_channel self stats base_fee_msat cltv
               min_fee_rate channel_id channel_data) log
      = inr (channel_point channel_data, new_policy).
Proof.
  intros [policy Hp] Hd Hnz.
  destruct (read_channel_stats (stats !! channel_id))
    as [[[[[flow fees_sat] t_in] t_out] total] count] eqn:Hs.
  unfold outcome.
  rewrite (fee_rate_change_channel_run _ _ _ _ _ _ _ _ _ _ _ _ _ _ _ _
             Hp Hd Hnz Hs).
  cbv zeta. simpl. eauto.
Qed.

(** The loop returns when every channel has a current policy and the window
    is not zero. *)
Lemma fee_rate_change_loop_succeeds (self : FeeSetter)
    (stats : gmap Z ChannelStats) (base_fee_msat cltv : Z) (min_fee_rate : Q)
    (days : Q) (items : list (Z * ChannelData)) :
  time_interval_days self = Some days -> ~ days == 0 ->
  Forall (fun item =>
            is_Some (channel_fee_policies self !! channel_point item.2))
         items ->
  forall (acc : gmap string FeePolicy) (log : list LogRecord),
  exists new_policies,
    outcome (fee_rate_change_loop self stats base_fee_msat cltv min_fee_rate
               items acc) log = inr new_policies.
Proof.
  intros Hd Hnz Hall.
  induction Hall as [| [channel_id channel_data] items Hp _ IH];
    intros acc log.
  - exists acc. reflexivity.
  - rewrite fee_rate_change_loop_outcome.
    destruct (fee_rate_change_channel_succeeds self stats base_fee_msat cltv
                min_fee_rate channel_id channel_data [] days Hp Hd Hnz)
      as [new_policy ->].
    apply IH.
Qed.





(** ** The lookback window *)

(** [set_fees_demand] stores the window in [self] and runs
    [fee_rate_change] with it; the policies are handed to the node when the
    call is reckless or confirmed. *)
Lemma set_fees_demand_outcome (self : FeeSetter)
    (channels : list (Z * ChannelData)) (stats : gmap Z ChannelStats)
    (answer : bool) (cltv base_fee_msat : Z) (from_days_ago min_fee_rate : Q)
    (reckless : bool) (log : list LogRecord) :
  outcome (set_fees_demand self channels stats answer cltv base_fee_msat
             from_days_ago min_fee_rate reckless) log =
  match outcome (fee_rate_change
                   {| channel_fee_policies := channel_fee_policies self;
                      time_interval_days := Some from_days_ago |}
                   channels stats base_fee_msat cltv min_fee_rate) [] with
  | inl e => inl e
  | inr new_policies =>
      inr (if reckless || answer then Some new_policies else None)
  end.
Proof.
  unfold set_fees_demand. rewrite outcome_mbind.
  - destruct (outcome _ []) as [e | new_policies]; [reflexivity |].
    destruct reckless, answer; reflexivity.
  - auto with appends.
  - intros new_policies. appends_steps.
Qed.

(** C8, as the code behaves.  A window of zero days makes
    [set_fees_demand] raise on the first channel of a batch that is not
    empty.  When that channel has no current policy the exception is
    [KeyError], raised by the lookup before anything is logged for the
    channel: the log holds the two header lines only.  When it has one, the
    exception is [ZeroDivisionError], raised by [factor_demand] after the
    channel's inputs and outward amount were logged.  In both cases nothing
    is handed to the node.  A negative window raises nothing: when every
    channel has a current policy, the policies are computed for all of
    them and handed to the node if the call is reckless or confirmed. *)
Theorem window_not_positive (self : FeeSetter)
    (channels : list (Z * ChannelData)) (stats : gmap Z ChannelStats)
    (answer : bool) (cltv base_fee_msat : Z) (from_days_ago min_fee_rate : Q)
    (reckless : bool) (log : list LogRecord) :
  from_days_ago <= 0 ->
  (from_days_ago == 0 ->
   forall channel_id channel_data rest
          (flow fees_sat : Q) (t_in t_out total count : Z),
     channels = (channel_id, channel_data) :: rest ->
     read_channel_stats (stats !! channel_id) =
       (flow, fees_sat, t_in, t_out, total, count) ->
     set_fees_demand self channels stats answer cltv base_fee_msat
       from_days_ago min_fee_rate reckless log =
     match channel_fee_policies self !! channel_point channel_data with
     | Some _ =>
         (log ++ [InfoDetermining; InfoBaseFeeCltv base_fee_msat cltv;
                  InfoNewPolicy channel_id;
                  InfoInputs (unbalancedness channel_data) flow fees_sat
                    (capacity channel_data) count t_in t_out;
                  InfoOutward (inject_Z t_out)],
          inl ZeroDivisionError)
     | None =>
         (log ++ [InfoDetermining; InfoBaseFeeCltv base_fee_msat cltv],
          inl (KeyError (channel_point channel_data)))
     end) /\
  (from_days_ago < 0 ->
   Forall (fun item =>
             is_Some (channel_fee_policies self !! channel_point item.2))
          channels ->
   exists new_policies,
     outcome (set_fees_demand self channels stats answer cltv base_fee_msat
                from_days_ago min_fee_rate reckless) log =
     inr (if reckless || answer then Some new_policies else None) /\
     forall channel_id channel_data,
       (channel_id, channel_data) ∈ channels ->
       is_Some (new_policies !! channel_point channel_data)).
Proof.
  intros _.
  set (self' := {| channel_fee_policies := channel_fee_policies self;
                   time_interval_days := Some from_days_ago |}).
  split.
  - intros Hzero channel_id channel_data rest flow fees_sat
      t_in t_out total count -> Hs.
    unfold set_fees_demand. fold self'.
    rewrite mbind_run, fee_rate_change_unfold, fee_rate_change_loop_cons.
    destruct (channel_fee_policies self !! channel_point channel_data)
      as [policy |] eqn:Hp.
    + rewrite (fee_rate_change_channel_zero_window self' stats base_fee_msat
                 cltv min_fee_rate channel_id channel_data _ policy
                 from_days_ago flow fees_sat t_in t_out total count
                 Hp eq_refl Hzero Hs).
      rewrite <- !app_assoc. reflexivity.
    + rewrite (fee_rate_change_channel_no_policy self' stats base_fee_msat
                 cltv min_fee_rate channel_id channel_data _ Hp).
      rewrite <- !app_assoc. reflexivity.
  - intros Hneg Hall. rewrite set_fees_demand_outcome. fold self'.
    assert (Hnz : ~ from_days_ago == 0) by lra.
    rewrite fee_rate_change_outcome.
    destruct (fee_rate_change_loop_succeeds self' stats base_fee_msat cltv
                min_fee_rate from_days_ago channels eq_refl Hnz Hall ∅ [])
      as [new_policies Hrun].
    rewrite Hrun. exists new_policies. split; [reflexivity |].
    apply (fee_rate_change_loop_keys _ _ _ _ _ _ _ _ _ Hrun).
Qed.

Lemma window_not_positive_witness :
  (exists new_policies,
     outcome (set_fees_demand Sample.setter2
                [(1%Z, Sample.idle_channel); (2%Z, Sample.other_channel)]
                {[ 2%Z := Sample.busy_stats ]} false 20 40 (-7) 0.000004
                true) [] =
     inr (if true || false then Some new_policies else None) /\
     forall channel_id channel_data,
       (channel_id, channel_data)
         ∈ [(1%Z, Sample.idle_channel); (2%Z, Sample.other_channel)] ->
       is_Some (new_policies !! channel_point channel_data)) /\
  set_fees_demand Sample.setter
    [(2%Z, Sample.other_channel); (1%Z, Sample.idle_channel)]
    ∅ false 20 40 0 0.000004 true [] =
  ([InfoDetermining; InfoBaseFeeCltv 40 20], inl (KeyError "b:1")) /\
  set_fees_demand Sample.setter
    [(1%Z, Sample.idle_channel); (2%Z, Sample.other_channel)]
    ∅ false 20 40 0 0.000004 true [] =
  ([InfoDetermining; InfoBaseFeeCltv 40 20; InfoNewPolicy 1;
    InfoInputs 0 0 0 1000000 0 0 0; InfoOutward (inject_Z 0)],
   inl ZeroDivisionError).
Proof.
  split; [| split].
  - apply (window_not_positive Sample.setter2
             [(1%Z, Sample.idle_channel); (2%Z, Sample.other_channel)]
             {[ 2%Z := Sample.busy_stats ]} false 20 40 (-7) 0.000004 true []).
    + vm_compute. discriminate.
    + reflexivity.
    + repeat constructor; vm_compute; eauto.
  - exact (proj1 (window_not_positive Sample.setter
                    [(2%Z, Sample.other_channel); (1%Z, Sample.idle_channel)]
                    ∅ false 20 40 0 0.000004 true []
                    ltac:(vm_compute; discriminate))
                 ltac:(reflexivity)
                 2%Z Sample.other_channel [(1%Z, Sample.idle_channel)]
                 0 0 0%Z 0%Z 0%Z 0%Z eq_refl eq_refl).
  - exact (proj1 (window_not_positive Sample.setter
                    [(1%Z, Sample.idle_channel); (2%Z, Sample.other_channel)]
                    ∅ false 20 40 0 0.000004 true []
                    ltac:(vm_compute; discriminate))
                 ltac:(reflexivity)
                 1%Z Sample.idle_channel [(2%Z, Sample.other_channel)]
                 0 0 0%Z 0%Z 0%Z 0%Z eq_refl eq_refl).
Defined.

(** C8, as stated, fails: with a window of [-7] days the policies of both
    channels are computed and handed to the node, and with a window of [0]
    days the exception is a [ZeroDivisionError], raised inside the
    computation for the first channel, after its inputs were logged. *)
Lemma negative_window_sets_policies :
  (exists new_policies,
     outcome (set_fees_demand Sample.setter2
                [(1%Z, Sample.idle_channel); (2%Z, Sample.other_channel)]
                {[ 2%Z := Sample.busy_stats ]} false 20 40 (-7) 0.000004
                true) [] = inr (Some new_policies) /\
     is_Some (new_policies !! "a:0"%string) /\
     is_Some (new_policies !! "b:1"%string)) /\
  set_fees_demand Sample.setter2
    [(1%Z, Sample.idle_channel); (2%Z, Sample.other_channel)]
    {[ 2%Z := Sample.busy_stats ]} false 20 40 0 0.000004 true [] =
  ([InfoDetermining; InfoBaseFeeCltv 40 20; InfoNewPolicy 1;
    InfoInputs 0 0 0 1000000 0 0 0; InfoOutward 0],
   inl ZeroDivisionError).
Proof.
  split.
  - eexists. split; [vm_compute; reflexivity |].
    split; vm_compute; eauto.
  - vm_compute. reflexivity.
Qed.

(** * Further properties of the module *)

(** ** The factors on all inputs *)

(** Neither factor function restricts its argument: outside [[-1, 1]] the
    result saturates, at [1.5] from [1] on and at [0.5] from [-1] down;
    inside, it is [1 + x * 0.5]; and the two functions agree on every
    argument. *)
Theorem factors_saturate (x : Q) :
  (0.5 <= factor_unbalancedness x <= 1.5) /\
  (1 <= x -> factor_unbalancedness x == 1.5) /\
  (x <= -1 -> factor_unbalancedness x == 0.5) /\
  (-1 <= x <= 1 -> factor_unbalancedness x == 1 + x * 0.5) /\
  factor_flow x == factor_unbalancedness x.
Proof.
  split; [apply factor_unbalancedness_bounds |].
  split; [intros H; factor_cases |].
  split; [intros H; factor_cases |].
  split; [apply factor_unbalancedness_inside |].
  apply factor_flow_unbalancedness.
Qed.

Lemma factors_saturate_witness :
  factor_unbalancedness 3 == 1.5 /\ factor_unbalancedness (-7) == 0.5 /\
  factor_flow 3 == factor_unbalancedness 3.
Proof.
  destruct (factors_saturate 3) as (_ & Hhi & _ & _ & Hsame).
  destruct (factors_saturate (-7)) as (_ & _ & Hlo & _).
  split; [apply Hhi; vm_compute; discriminate |].
  split; [apply Hlo; vm_compute; discriminate | exact Hsame].
Defined.

(** ** The demand factor *)

Lemma Qdiv_nonneg (a d : Q) : 0 <= a -> 0 < d -> 0 <= a / d.
Proof.
  intros Ha Hd. apply Qle_shift_div_l; [exact Hd |]. lra.
Qed.

Lemma Qdiv_le_compat (a b d : Q) : a <= b -> 0 < d -> a / d <= b / d.
Proof.
  intros Hab Hd. apply Qle_shift_div_l; [exact Hd |].
  assert (H : a / d * d == a) by (field; lra). rewrite H. exact Hab.
Qed.

(** The value returned for a daily rate [rate], as a function of the
    rate. *)
Lemma demand_of_rate (rate : Q) :
  let value := py_min (0.25 * (rate / (100000 / 7) - 1) + 1) (1 + 1.00) in
  value <= 2 /\
  (0 <= rate -> 0.75 <= value) /\
  (rate == 100000 / 7 -> value == 1) /\
  (5 * (100000 / 7) <= rate -> value == 2).
Proof.
  cbv zeta. unfold py_min.
  assert (Htarget : 100000 / 7 == 100000 # 7) by reflexivity.
  split; [| split; [| split]].
  - py_cases; div_const (100000 / 7); lra.
  - intros H. py_cases; div_const (100000 / 7); lra.
  - intros H. rewrite Htarget in H.
    py_cases; div_const (100000 / 7); lra.
  - intros H. rewrite Htarget in H.
    py_cases; div_const (100000 / 7); lra.
Qed.

Lemma demand_of_rate_mono (rate1 rate2 : Q) :
  rate1 <= rate2 ->
  py_min (0.25 * (rate1 / (100000 / 7) - 1) + 1) (1 + 1.00) <=
  py_min (0.25 * (rate2 / (100000 / 7) - 1) + 1) (1 + 1.00).
Proof.
  intros H. unfold py_min. py_cases; div_const (100000 / 7); lra.
Qed.

(** With a positive window, [factor_demand] returns and is monotonic
    non-decreasing in the amount; for amounts that are not negative the
    result lies in [[0.75, 2]]; it is [1] when the daily rate is the target
    [100000 / 7], and [2] from five times the target on. *)
Theorem factor_demand_shape (self : FeeSetter) (days : Q) (capacity : Z)
    (log : list LogRecord) (amount1 amount2 : Q) :
  time_interval_days self = Some days -> 0 < days ->
  0 <= amount1 -> amount1 <= amount2 ->
  exists r1 r2 : Q,
    outcome (factor_demand self amount1 capacity) log = inr r1 /\
    outcome (factor_demand self amount2 capacity) log = inr r2 /\
    0.75 <= r1 /\ r1 <= r2 /\ r2 <= 2 /\
    (amount1 / days == 100000 / 7 -> r1 == 1) /\
    (5 * (100000 / 7) <= amount1 / days -> r1 == 2).
Proof.
  intros Hd Hpos H1 H12.
  assert (Hnz : ~ days == 0) by lra.
  unfold outcome. rewrite !(factor_demand_run _ _ _ _ _ Hd Hnz). simpl snd.
  eexists _, _. split; [reflexivity |]. split; [reflexivity |].
  pose proof (Qdiv_nonneg _ _ H1 Hpos) as Hrate.
  pose proof (Qdiv_le_compat _ _ _ H12 Hpos) as Hrates.
  destruct (demand_of_rate (amount1 / days)) as (_ & Hlow & Hone & Htwo).
  destruct (demand_of_rate (amount2 / days)) as (Hup & _).
  split; [apply Hlow, Hrate |].
  split; [apply demand_of_rate_mono, Hrates |].
  split; [exact Hup |].
  split; [exact Hone | exact Htwo].
Qed.

Lemma factor_demand_shape_witness :
  exists r1 r2 : Q,
    outcome (factor_demand Sample.setter 100000 1000000) [] = inr r1 /\
    outcome (factor_demand Sample.setter 600000 1000000) [] = inr r2 /\
    0.75 <= r1 /\ r1 <= r2 /\ r2 <= 2 /\
    (100000 / 7 == 100000 / 7 -> r1 == 1) /\
    (5 * (100000 / 7) <= 100000 / 7 -> r1 == 2).
Proof.
  apply (factor_demand_shape Sample.setter 7 1000000 [] 100000 600000).
  - reflexivity.
  - reflexivity.
  - vm_compute; discriminate.
  - vm_compute; discriminate.
Defined.

(** [factor_demand] needs the window that [set_fees_demand] stores: without
    the attribute it raises [AttributeError], with a window of zero days
    [ZeroDivisionError]; in both cases the amount has been logged, and
    nothing else. *)
Theorem factor_demand_without_window (self : FeeSetter) (amount_out : Q)
    (capacity : Z) (log : list LogRecord) :
  (time_interval_days self = None ->
   factor_demand self amount_out capacity log =
   (log ++ [InfoOutward amount_out],
    inl (AttributeError "time_interval_days"))) /\
  (forall days,
     time_interval_days self = Some days -> days == 0 ->
     factor_demand self amount_out capacity log =
     (log ++ [InfoOutward amount_out], inl ZeroDivisionError)).
Proof.
  split.
  - apply factor_demand_no_days.
  - intros days. apply factor_demand_zero_days.
Qed.

Lemma factor_demand_without_window_witness :
  factor_demand {| channel_fee_policies := ∅; time_interval_days := None |}
    5 1000 [] =
  ([InfoOutward 5], inl (AttributeError "time_interval_days")) /\
  factor_demand {| channel_fee_policies := ∅; time_interval_days := Some 0 |}
    5 1000 [] =
  ([InfoOutward 5], inl ZeroDivisionError).
Proof.
  split.
  - apply (proj1 (factor_demand_without_window
                    {| channel_fee_policies := ∅;
                       time_interval_days := None |} 5 1000 [])).
    reflexivity.
  - apply (proj2 (factor_demand_without_window
                    {| channel_fee_policies := ∅;
                       time_interval_days := Some 0 |} 5 1000 []) 0);
      reflexivity.
Defined.

(** ** The returned mapping *)

(** What the loop returns, key by key: the keys away from the channel
    points keep what was stored; every channel went through the body
    without raising; and, with channel points that differ from channel to
    channel, each channel point holds the policy the body computes for its
    channel. *)
Lemma fee_rate_change_loop_lookup (self : FeeSetter)
    (stats : gmap Z ChannelStats) (base_fee_msat cltv : Z) (min_fee_rate : Q)
    (items : list (Z * ChannelData)) :
  forall (acc : gmap string FeePolicy) (log : list LogRecord)
         (new_policies : gmap string FeePolicy),
    outcome (fee_rate_change_loop self stats base_fee_msat cltv min_fee_rate
               items acc) log = inr new_policies ->
    (forall item, item ∈ items ->
       exists policy,
         outcome (fee_rate_change_channel self stats base_fee_msat cltv
                    min_fee_rate item.1 item.2) []
           = inr (channel_point item.2, policy)) /\
    (forall key,
       key ∉ (fun item => channel_point item.2) <$> items ->
       new_policies !! key = acc !! key) /\
    (NoDup ((fun item => channel_point item.2) <$> items) ->
     forall item policy,
       item ∈ items ->
       outcome (fee_rate_change_channel self stats base_fee_msat cltv
                  min_fee_rate item.1 item.2) []
         = inr (channel_point item.2, policy) ->
       new_policies !! channel_point item.2 = Some policy).
Proof.
  induction items as [| [channel_id channel_data] items IH];
    intros acc log new_policies Hrun.
  - unfold outcome in Hrun. simpl in Hrun. inversion Hrun; subst.
    split; [intros item Hin; inversion Hin |].
    split; [reflexivity |].
    intros _ item policy Hin. inversion Hin.
  - rewrite fee_rate_change_loop_outcome in Hrun.
    destruct (outcome (fee_rate_change_channel self stats base_fee_msat cltv
                         min_fee_rate channel_id channel_data) [])
      as [e | [key policy]] eqn:Hbody; [discriminate |].
    destruct (fee_rate_change_channel_policy _ _ _ _ _ _ _ _ _ _ Hbody)
      as (-> & _).
    destruct (IH _ _ _ Hrun) as (Hbodies & Hkeep & Hnew).
    split; [| split].
    + intros item Hin. apply elem_of_cons in Hin as [-> | Hin].
      * simpl. eauto.
      * apply Hbodies, Hin.
    + intros key Hkey. rewrite fmap_cons in Hkey.
      apply not_elem_of_cons in Hkey as [Hne Hkey]. simpl in Hne.
      rewrite (Hkeep key Hkey). apply lookup_insert_ne. congruence.
    + rewrite fmap_cons. intros [Hfresh Hnodup]%NoDup_cons item policy' Hin Hitem.
      simpl in Hfresh.
      apply elem_of_cons in Hin as [-> | Hin].
      * simpl in *. rewrite (Hkeep _ Hfresh), lookup_insert_eq. congruence.
      * apply (Hnew Hnodup item policy' Hin Hitem).
Qed.

(** The loop returns when the body returns for every channel. *)
Lemma fee_rate_change_loop_returns (self : FeeSetter)
    (stats : gmap Z ChannelStats) (base_fee_msat cltv : Z) (min_fee_rate : Q)
    (items : list (Z * ChannelData)) :
  (forall item, item ∈ items ->
     exists policy,
       outcome (fee_rate_change_channel self stats base_fee_msat cltv
                  min_fee_rate item.1 item.2) []
         = inr (channel_point item.2, policy)) ->
  forall (acc : gmap string FeePolicy) (log : list LogRecord),
  exists new_policies,
    outcome (fee_rate_change_loop self stats base_fee_msat cltv min_fee_rate
               items acc) log = inr new_policies.
Proof.
  induction items as [| [channel_id channel_data] items IH];
    intros Hall acc log.
  - exists acc. reflexivity.
  - rewrite fee_rate_change_loop_outcome.
    destruct (Hall (channel_id, channel_data)) as [policy Hbody];
      [apply list_elem_of_here |].
    simpl in Hbody. rewrite Hbody. apply IH.
    intros item Hin. apply Hall. apply list_elem_of_further, Hin.
Qed.

(** Every policy the loop adds carries the base fee and the time-lock delta
    given as arguments. *)
Lemma fee_rate_change_loop_fields (self : FeeSetter)
    (stats : gmap Z ChannelStats) (base_fee_msat cltv : Z) (min_fee_rate : Q)
    (items : list (Z * ChannelData)) :
  forall (acc : gmap string FeePolicy) (log : list LogRecord)
         (new_policies : gmap string FeePolicy),
    map_Forall (fun _ p => p = {| base_fee_msat := base_fee_msat;
                                  fee_rate := fee_rate p;
                                  cltv := cltv |}) acc ->
    outcome (fee_rate_change_loop self stats base_fee_msat cltv min_fee_rate
               items acc) log = inr new_policies ->
    map_Forall (fun _ p => p = {| base_fee_msat := base_fee_msat;
                                  fee_rate := fee_rate p;
                                  cltv := cltv |}) new_policies.
Proof.
  induction items as [| [channel_id channel_data] items IH];
    intros acc log new_policies Hacc Hrun.
  - unfold outcome in Hrun. simpl in Hrun. inversion Hrun; subst. exact Hacc.
  - rewrite fee_rate_change_loop_outcome in Hrun.
    destruct (outcome (fee_rate_change_channel self stats base_fee_msat cltv
                         min_fee_rate channel_id channel_data) [])
      as [e | [key policy]] eqn:Hbody; [discriminate |].
    apply (IH (<[key := policy]> acc) []); [| exact Hrun].
    apply map_Forall_insert_2; [| exact Hacc].
    eapply fee_rate_change_channel_policy. exact Hbody.
Qed.

(** When [fee_rate_change] returns, the keys of the mapping are the channel
    points of the batch, no more and no less, and every policy carries the
    [base_fee_msat] and the [cltv] of the call. *)
Theorem new_policies_keys_and_fields (self : FeeSetter)
    (channels : list (Z * ChannelData)) (stats : gmap Z ChannelStats)
    (base_fee_msat cltv : Z) (min_fee_rate : Q) (log : list LogRecord)
    (new_policies : gmap string FeePolicy) :
  outcome (fee_rate_change self channels stats base_fee_msat cltv
             min_fee_rate) log = inr new_policies ->
  (forall key,
     is_Some (new_policies !! key) <->
     key ∈ (fun item => channel_point item.2) <$> channels) /\
  (forall key policy,
     new_policies !! key = Some policy ->
     policy = {| base_fee_msat := base_fee_msat;
                 fee_rate := fee_rate policy;
                 cltv := cltv |}).
Proof.
  intros Hrun. rewrite fee_rate_change_outcome in Hrun.
  destruct (fee_rate_change_loop_lookup _ _ _ _ _ _ _ _ _ Hrun)
    as (_ & Hkeep & _).
  destruct (fee_rate_change_loop_keys _ _ _ _ _ _ _ _ _ Hrun) as [_ Hnew].
  split.
  - intros key. split.
    + intros Hsome.
      destruct (decide (key ∈ (fun item => channel_point item.2) <$> channels))
        as [Hin | Hout]; [exact Hin |].
      rewrite (Hkeep key Hout), lookup_empty in Hsome.
      destruct Hsome as [p Hp]. discriminate.
    + intros ([channel_id channel_data] & -> & Hin)%list_elem_of_fmap.
      apply (Hnew _ _ Hin).
  - intros key policy Hk.
    apply (fee_rate_change_loop_fields _ _ _ _ _ _ _ _ _
             (map_Forall_empty _) Hrun key policy Hk).
Qed.

Lemma new_policies_keys_and_fields_witness :
  exists new_policies : gmap string FeePolicy,
    (forall key,
       is_Some (new_policies !! key) <->
       key ∈ (fun item => channel_point item.2)
             <$> [(1%Z, Sample.idle_channel); (2%Z, Sample.other_channel)]) /\
    (forall key policy,
       new_policies !! key = Some policy ->
       policy = {| base_fee_msat := 40;
                   fee_rate := fee_rate policy;
                   cltv := 20 |}).
Proof.
  eexists.
  apply (new_policies_keys_and_fields Sample.setter2
           [(1%Z, Sample.idle_channel); (2%Z, Sample.other_channel)]
           {[ 2%Z := Sample.busy_stats ]} 40 20 0.000004 []).
  vm_compute. reflexivity.
Defined.

(** The channels of a batch do not influence each other: when
    [fee_rate_change] returns and no two channels share a channel point,
    the policy stored for a channel is the one the loop body computes for
    that channel on its own. *)
Theorem channels_independent (self : FeeSetter)
    (channels : list (Z * ChannelData)) (stats : gmap Z ChannelStats)
    (base_fee_msat cltv : Z) (min_fee_rate : Q) (log : list LogRecord)
    (new_policies : gmap string FeePolicy)
    (channel_id : Z) (channel_data : ChannelData) :
  NoDup ((fun item => channel_point item.2) <$> channels) ->
  (channel_id, channel_data) ∈ channels ->
  outcome (fee_rate_change self channels stats base_fee_msat cltv
             min_fee_rate) log = inr new_policies ->
  exists policy,
    outcome (fee_rate_change_channel self stats base_fee_msat cltv
               min_fee_rate channel_id channel_data) []
      = inr (channel_point channel_data, policy) /\
    new_policies !! channel_point channel_data = Some policy.
Proof.
  intros Hnodup Hin Hrun. rewrite fee_rate_change_outcome in Hrun.
  destruct (fee_rate_change_loop_lookup _ _ _ _ _ _ _ _ _ Hrun)
    as (Hbodies & _ & Hnew).
  destruct (Hbodies _ Hin) as [policy Hbody]. simpl in Hbody.
  exists policy. split; [exact Hbody |].
  apply (Hnew Hnodup (channel_id, channel_data) policy Hin Hbody).
Qed.

Lemma channels_independent_witness :
  exists policy,
    outcome (fee_rate_change_channel Sample.setter2
               {[ 2%Z := Sample.busy_stats ]} 40 20 0.000004
               2 Sample.other_channel) []
      = inr (channel_point Sample.other_channel, policy) /\
    Sample.batch_policies !! channel_point Sample.other_channel = Some policy.
Proof.
  apply (channels_independent Sample.setter2 Sample.batch
           {[ 2%Z := Sample.busy_stats ]} 40 20 0.000004 []
           Sample.batch_policies 2 Sample.other_channel).
  - compute_done.
  - apply list_elem_of_further, list_elem_of_here.
  - vm_compute. reflexivity.
Defined.

(** The order of the channels does not matter for the result: when
    [fee_rate_change] returns for a batch without shared channel points,
    it returns the same mapping for every reordering of the batch. *)
Theorem channel_order_irrelevant (self : FeeSetter)
    (channels1 channels2 : list (Z * ChannelData))
    (stats : gmap Z ChannelStats)
    (base_fee_msat cltv : Z) (min_fee_rate : Q) (log1 log2 : list LogRecord)
    (new_policies : gmap string FeePolicy) :
  channels1 ≡ₚ channels2 ->
  NoDup ((fun item => channel_point item.2) <$> channels1) ->
  outcome (fee_rate_change self channels1 stats base_fee_msat cltv
             min_fee_rate) log1 = inr new_policies ->
  outcome (fee_rate_change self channels2 stats base_fee_msat cltv
             min_fee_rate) log2 = inr new_policies.
Proof.
  intros Hperm Hnodup1 Hrun1. rewrite fee_rate_change_outcome in *.
  destruct (fee_rate_change_loop_lookup _ _ _ _ _ _ _ _ _ Hrun1)
    as (Hbodies1 & Hkeep1 & Hnew1).
  assert (Hnodup2 : NoDup ((fun item => channel_point item.2) <$> channels2))
    by (rewrite <- Hperm; exact Hnodup1).
  destruct (fee_rate_change_loop_returns self stats base_fee_msat cltv
              min_fee_rate channels2) with (acc := (∅ : gmap string FeePolicy))
                                           (log := @nil LogRecord)
    as [new_policies2 Hrun2].
  { intros item Hin. apply Hbodies1. rewrite Hperm. exact Hin. }
  rewrite Hrun2. f_equal.
  destruct (fee_rate_change_loop_lookup _ _ _ _ _ _ _ _ _ Hrun2)
    as (_ & Hkeep2 & Hnew2).
  apply map_eq. intros key.
  destruct (decide (key ∈ (fun item => channel_point item.2) <$> channels1))
    as [Hin | Hout].
  - apply list_elem_of_fmap in Hin as (item & -> & Hin).
    destruct (Hbodies1 item Hin) as [policy Hbody].
    rewrite (Hnew1 Hnodup1 item policy Hin Hbody).
    apply (Hnew2 Hnodup2 item policy); [| exact Hbody].
    rewrite <- Hperm. exact Hin.
  - rewrite (Hkeep1 key Hout). apply Hkeep2.
    rewrite <- Hperm. exact Hout.
Qed.

Lemma channel_order_irrelevant_witness :
  outcome (fee_rate_change Sample.setter2
             [(2%Z, Sample.other_channel); (1%Z, Sample.idle_channel)]
             {[ 2%Z := Sample.busy_stats ]} 40 20 0.000004) []
  = inr Sample.batch_policies.
Proof.
  apply (channel_order_irrelevant Sample.setter2 Sample.batch
           [(2%Z, Sample.other_channel); (1%Z, Sample.idle_channel)]
           {[ 2%Z := Sample.busy_stats ]} 40 20 0.000004 [] []
           Sample.batch_policies).
  - apply Permutation_swap.
  - compute_done.
  - vm_compute. reflexivity.
Defined.

(** ** How far one run moves a fee rate *)

(** The weighted mean of the three factors, over their ranges. *)
Lemma weighted_change_bounds (f_ub f_flow f_demand : Q) (total : Z) :
  0.5 <= f_ub <= 1.5 -> 0.5 <= f_flow <= 1.5 -> 0.75 <= f_demand <= 2 ->
  17 # 28 <=
    (1.0 * f_ub + (if (total =? 0)%Z then 0 else 0.6) * f_flow
     + 1.2 * f_demand)
    / (1.0 + (if (total =? 0)%Z then 0 else 0.6) + 1.2)
  <= 39 # 22.
Proof.
  intros Hub Hflow Hdemand. destruct (total =? 0)%Z.
  - div_const (1.0 + 0 + 1.2). lra.
  - div_const (1.0 + 0.6 + 1.2). lra.
Qed.

Lemma Qmult_le_compat_l_nonneg (a x y : Q) : 0 <= a -> x <= y -> a * x <= a * y.
Proof.
  intros Ha Hxy. rewrite (Qmult_comm a x), (Qmult_comm a y).
  apply Qmult_le_compat_r; assumption.
Qed.

(** For a channel whose outward volume is not negative, with a positive
    window, the logged weighted change lies between [17/28] and [39/22].
    So a fee rate above [2E-6] is multiplied by a number in that interval,
    unless the floor applies; and a fee rate of at most [2E-6] that is not
    negative ends at the floor or at no more than [73/22] times itself. *)
Theorem fee_rate_step_bounded (self : FeeSetter) (stats : gmap Z ChannelStats)
    (base_fee_msat cltv : Z) (min_fee_rate : Q)
    (channel_id : Z) (channel_data : ChannelData) (log : list LogRecord)
    (policy : FeePolicy) (days : Q)
    (flow fees_sat : Q) (t_in t_out total count : Z) :
  channel_fee_policies self !! channel_point channel_data = Some policy ->
  time_interval_days self = Some days -> 0 < days ->
  read_channel_stats (stats !! channel_id) =
    (flow, fees_sat, t_in, t_out, total, count) ->
  (0 <= t_out)%Z ->
  0 <= fee_rate policy ->
  exists (f_demand f_ub f_flow change : Q) (records : list LogRecord)
         (new_policy : FeePolicy),
    fee_rate_change_channel self stats base_fee_msat cltv min_fee_rate
      channel_id channel_data log =
    (log ++ records, inr (channel_point channel_data, new_policy)) /\
    InfoChangeFactors f_demand f_ub f_flow change ∈ records /\
    17 # 28 <= change <= 39 # 22 /\
    (2e-6 < fee_rate policy ->
     fee_rate new_policy = min_fee_rate \/
     (17 # 28) * fee_rate policy <= fee_rate new_policy
       <= (39 # 22) * fee_rate policy) /\
    (fee_rate policy <= 2e-6 ->
     fee_rate new_policy = min_fee_rate \/
     fee_rate new_policy <= (73 # 22) * fee_rate policy).
Proof.
  intros Hp Hd Hpos Hs Hout Hfee.
  assert (Hnz : ~ days == 0) by lra.
  rewrite (fee_rate_change_channel_run _ _ _ _ _ _ _ _ _ _ _ _ _ _ _ _
             Hp Hd Hnz Hs).
  cbv zeta.
  assert (Hamount : 0 <= inject_Z t_out)
    by (change 0 with (inject_Z 0); rewrite <- Zle_Qle; exact Hout).
  pose proof (Qdiv_nonneg _ _ Hamount Hpos) as Hrate.
  destruct (demand_of_rate (inject_Z t_out / days)) as (Hup & Hlow & _).
  specialize (Hlow Hrate).
  pose proof (weighted_change_bounds
                (factor_unbalancedness (unbalancedness channel_data))
                (factor_flow flow) _ total
                (factor_unbalancedness_bounds _) (factor_flow_bounds _)
                (conj Hlow Hup)) as Hchange.
  eexists _, _, _, _, _, _.
  split; [reflexivity |].
  split; [do 3 apply list_elem_of_further; apply list_elem_of_here |].
  split; [exact Hchange |].
  simpl fee_rate. revert Hchange.
  generalize ((1.0 * factor_unbalancedness (unbalancedness channel_data)
               + (if (total =? 0)%Z then 0 else 0.6) * factor_flow flow
               + 1.2 * py_min (0.25 * (inject_Z t_out / days / (100000 / 7)
                                       - 1) + 1) (1 + 1.00))
              / (1.0 + (if (total =? 0)%Z then 0 else 0.6) + 1.2)).
  intros change [Hlo Hhi].
  destruct (Qle_boolP (fee_rate policy) 2e-6) as [Hsmall | Hlarge].
  - split; [intros H; lra |]. intros _.
    destruct (py_max_cases min_fee_rate
                (fee_rate policy * (1 + (change - 1) * 3)))
      as [[_ ->] | [_ ->]]; [left; reflexivity | right].
    rewrite (Qmult_comm (73 # 22)).
    apply Qmult_le_compat_l_nonneg; [exact Hfee | lra].
  - split; [| intros H; lra]. intros _.
    destruct (py_max_cases min_fee_rate (fee_rate policy * change))
      as [[_ ->] | [_ ->]]; [left; reflexivity | right].
    rewrite (Qmult_comm (17 # 28)), (Qmult_comm (39 # 22)).
    split; apply Qmult_le_compat_l_nonneg; assumption.
Qed.

Lemma fee_rate_step_bounded_witness :
  exists (f_demand f_ub f_flow change : Q) (records : list LogRecord)
         (new_policy : FeePolicy),
    fee_rate_change_channel Sample.setter2 {[ 2%Z := Sample.busy_stats ]}
      40 20 0.000004 2 Sample.other_channel [] =
    ([] ++ records, inr (channel_point Sample.other_channel, new_policy)) /\
    InfoChangeFactors f_demand f_ub f_flow change ∈ records /\
    17 # 28 <= change <= 39 # 22 /\
    (2e-6 < fee_rate Sample.policy_100 ->
     fee_rate new_policy = 0.000004 \/
     (17 # 28) * fee_rate Sample.policy_100 <= fee_rate new_policy
       <= (39 # 22) * fee_rate Sample.policy_100) /\
    (fee_rate Sample.policy_100 <= 2e-6 ->
     fee_rate new_policy = 0.000004 \/
     fee_rate new_policy <= (73 # 22) * fee_rate Sample.policy_100).
Proof.
  apply (fee_rate_step_bounded Sample.setter2 {[ 2%Z := Sample.busy_stats ]}
           40 20 0.000004 2 Sample.other_channel [] Sample.policy_100 7
           0.5 (inject_Z 12000 / 1000) 50000 150000 200000 9).
  - reflexivity.
  - reflexivity.
  - reflexivity.
  - reflexivity.
  - vm_compute; discriminate.
  - vm_compute; discriminate.
Defined.

(** ** When a fee rate stays *)

Lemma factor_flow_neutral (flow : Q) : flow == 0 -> factor_flow flow == 1.
Proof. intros H. factor_cases. Qed.

(** The weighted mean of three neutral factors is neutral, with or without
    the weight of the flow. *)
Lemma weighted_change_neutral (f_ub f_flow f_demand : Q) (total : Z) :
  f_ub == 1 -> f_flow == 1 -> f_demand == 1 ->
  (1.0 * f_ub + (if (total =? 0)%Z then 0 else 0.6) * f_flow
   + 1.2 * f_demand)
  / (1.0 + (if (total =? 0)%Z then 0 else 0.6) + 1.2) == 1.
Proof.
  intros Hub Hflow Hdemand. destruct (total =? 0)%Z.
  - div_const (1.0 + 0 + 1.2). lra.
  - div_const (1.0 + 0.6 + 1.2). lra.
Qed.

(** The fee rate of a channel is left as it is in the neutral situation of
    the three signals: unbalancedness [0], flow [0] and an outward volume
    at the target rate of [100000 / 7] per day.  Then the weighted change
    is [1] and the new fee rate is the current one, small or not, provided
    the current one is not below the floor. *)
Theorem neutral_channel_keeps_fee_rate (self : FeeSetter)
    (stats : gmap Z ChannelStats)
    (base_fee_msat cltv : Z) (min_fee_rate : Q)
    (channel_id : Z) (channel_data : ChannelData) (log : list LogRecord)
    (policy : FeePolicy) (days : Q)
    (flow fees_sat : Q) (t_in t_out total count : Z) :
  channel_fee_policies self !! channel_point channel_data = Some policy ->
  time_interval_days self = Some days -> ~ days == 0 ->
  read_channel_stats (stats !! channel_id) =
    (flow, fees_sat, t_in, t_out, total, count) ->
  unbalancedness channel_data == 0 ->
  flow == 0 ->
  inject_Z t_out / days == 100000 / 7 ->
  min_fee_rate <= fee_rate policy ->
  exists (f_demand f_ub f_flow change : Q) (records : list LogRecord)
         (new_policy : FeePolicy),
    fee_rate_change_channel self stats base_fee_msat cltv min_fee_rate
      channel_id channel_data log =
    (log ++ records, inr (channel_point channel_data, new_policy)) /\
    InfoChangeFactors f_demand f_ub f_flow change ∈ records /\
    change == 1 /\
    fee_rate new_policy == fee_rate policy.
Proof.
  intros Hp Hd Hnz Hs Hub Hflow Hrate Hmin.
  rewrite (fee_rate_change_channel_run _ _ _ _ _ _ _ _ _ _ _ _ _ _ _ _
             Hp Hd Hnz Hs).
  cbv zeta.
  destruct (demand_of_rate (inject_Z t_out / days)) as (_ & _ & Hone & _).
  pose proof (weighted_change_neutral _ _ _ total
                (factor_unbalancedness_neutral _ Hub)
                (factor_flow_neutral _ Hflow) (Hone Hrate)) as Hchange.
  eexists _, _, _, _, _, _.
  split; [reflexivity |].
  split; [do 3 apply list_elem_of_further; apply list_elem_of_here |].
  split; [exact Hchange |].
  simpl fee_rate. revert Hchange.
  generalize ((1.0 * factor_unbalancedness (unbalancedness channel_data)
               + (if (total =? 0)%Z then 0 else 0.6) * factor_flow flow
               + 1.2 * py_min (0.25 * (inject_Z t_out / days / (100000 / 7)
                                       - 1) + 1) (1 + 1.00))
              / (1.0 + (if (total =? 0)%Z then 0 else 0.6) + 1.2)).
  intros change Hchange.
  assert (Hprod : fee_rate policy
                  * (if Qle_bool (fee_rate policy) 2e-6
                     then 1 + (change - 1) * 3 else change)
                  == fee_rate policy).
  { destruct (Qle_bool (fee_rate policy) 2e-6); rewrite Hchange; ring. }
  revert Hprod.
  generalize (fee_rate policy
              * (if Qle_bool (fee_rate policy) 2e-6
                 then 1 + (change - 1) * 3 else change)).
  intros prod Hprod. unfold py_max. py_cases; lra.
Qed.

Lemma neutral_channel_keeps_fee_rate_witness :
  exists (f_demand f_ub f_flow change : Q) (records : list LogRecord)
         (new_policy : FeePolicy),
    fee_rate_change_channel Sample.setter
      {[ 1%Z := {| flow_direction := 0; fees_total := 1500;
                   total_forwarding_in := 100000;
                   total_forwarding_out := 100000;
                   number_forwardings := 4 |} ]}
      40 20 0.000004 1 Sample.idle_channel [] =
    ([] ++ records, inr (channel_point Sample.idle_channel, new_policy)) /\
    InfoChangeFactors f_demand f_ub f_flow change ∈ records /\
    change == 1 /\
    fee_rate new_policy == fee_rate Sample.policy_100.
Proof.
  apply (neutral_channel_keeps_fee_rate Sample.setter
           {[ 1%Z := {| flow_direction := 0; fees_total := 1500;
                        total_forwarding_in := 100000;
                        total_forwarding_out := 100000;
                        number_forwardings := 4 |} ]}
           40 20 0.000004 1 Sample.idle_channel [] Sample.policy_100 7
           0 (inject_Z 1500 / 1000) 100000 100000 200000 4).
  - reflexivity.
  - reflexivity.
  - intros H; vm_compute in H; discriminate.
  - reflexivity.
  - reflexivity.
  - reflexivity.
  - reflexivity.
  - vm_compute; discriminate.
Defined.

(** ** Monotonicity of the new fee rate *)

Lemma py_max_mono (a x y : Q) : x <= y -> py_max a x <= py_max a y.
Proof. intros H. unfold py_max. py_cases; lra. Qed.

(** The weighted mean grows with each factor, for a fixed weight of the
    flow. *)
Lemma weighted_change_mono (ub1 ub2 fl1 fl2 d1 d2 : Q) (zero : bool) :
  ub1 <= ub2 -> fl1 <= fl2 -> d1 <= d2 ->
  (1.0 * ub1 + (if zero then 0 else 0.6) * fl1 + 1.2 * d1)
  / (1.0 + (if zero then 0 else 0.6) + 1.2)
  <= (1.0 * ub2 + (if zero then 0 else 0.6) * fl2 + 1.2 * d2)
     / (1.0 + (if zero then 0 else 0.6) + 1.2).
Proof.
  intros Hub Hfl Hd. destruct zero.
  - div_const (1.0 + 0 + 1.2). lra.
  - div_const (1.0 + 0.6 + 1.2). lra.
Qed.

(** The new fee rate is monotonic in the three signals.  Of two channels
    with the same current policy, the one with the larger unbalancedness,
    flow and outward volume (both with or both without forwarding) gets a
    new fee rate that is at least as large, when the current fee rate is
    not negative and the window is positive. *)
Theorem new_fee_rate_monotone (self : FeeSetter)
    (stats1 stats2 : gmap Z ChannelStats)
    (base_fee_msat cltv : Z) (min_fee_rate : Q)
    (id1 id2 : Z) (data1 data2 : ChannelData) (log1 log2 : list LogRecord)
    (policy : FeePolicy) (days : Q)
    (flow1 fees1 : Q) (t_in1 t_out1 total1 count1 : Z)
    (flow2 fees2 : Q) (t_in2 t_out2 total2 count2 : Z) :
  channel_point data1 = channel_point data2 ->
  channel_fee_policies self !! channel_point data1 = Some policy ->
  0 <= fee_rate policy ->
  time_interval_days self = Some days -> 0 < days ->
  read_channel_stats (stats1 !! id1) =
    (flow1, fees1, t_in1, t_out1, total1, count1) ->
  read_channel_stats (stats2 !! id2) =
    (flow2, fees2, t_in2, t_out2, total2, count2) ->
  unbalancedness data1 <= unbalancedness data2 ->
  flow1 <= flow2 ->
  (t_out1 <= t_out2)%Z ->
  (total1 =? 0)%Z = (total2 =? 0)%Z ->
  exists new_policy1 new_policy2,
    outcome (fee_rate_change_channel self stats1 base_fee_msat cltv
               min_fee_rate id1 data1) log1
      = inr (channel_point data1, new_policy1) /\
    outcome (fee_rate_change_channel self stats2 base_fee_msat cltv
               min_fee_rate id2 data2) log2
      = inr (channel_point data2, new_policy2) /\
    fee_rate new_policy1 <= fee_rate new_policy2.
Proof.
  intros Hcp Hp1 Hfee Hd Hpos Hs1 Hs2 Hub Hflow Hout Htotal.
  assert (Hnz : ~ days == 0) by lra.
  assert (Hp2 : channel_fee_policies self !! channel_point data2 = Some policy)
    by (rewrite <- Hcp; exact Hp1).
  unfold outcome.
  rewrite (fee_rate_change_channel_run _ _ _ _ _ _ _ _ _ _ _ _ _ _ _ _
             Hp1 Hd Hnz Hs1).
  rewrite (fee_rate_change_channel_run _ _ _ _ _ _ _ _ _ _ _ _ _ _ _ _
             Hp2 Hd Hnz Hs2).
  cbv zeta. simpl snd. eexists _, _.
  split; [reflexivity |]. split; [reflexivity |]. simpl fee_rate.
  assert (Hamount : inject_Z t_out1 / days <= inject_Z t_out2 / days).
  { apply Qdiv_le_compat; [| exact Hpos]. rewrite <- Zle_Qle. exact Hout. }
  pose proof (weighted_change_mono _ _ _ _ _ _ (total2 =? 0)%Z
                (factor_unbalancedness_mono _ _ Hub)
                (factor_flow_mono _ _ Hflow)
                (demand_of_rate_mono _ _ Hamount)) as Hchange.
  rewrite Htotal. revert Hchange.
  generalize ((1.0 * factor_unbalancedness (unbalancedness data1)
               + (if (total2 =? 0)%Z then 0 else 0.6) * factor_flow flow1
               + 1.2 * py_min (0.25 * (inject_Z t_out1 / days / (100000 / 7)
                                       - 1) + 1) (1 + 1.00))
              / (1.0 + (if (total2 =? 0)%Z then 0 else 0.6) + 1.2)).
  generalize ((1.0 * factor_unbalancedness (unbalancedness data2)
               + (if (total2 =? 0)%Z then 0 else 0.6) * factor_flow flow2
               + 1.2 * py_min (0.25 * (inject_Z t_out2 / days / (100000 / 7)
                                       - 1) + 1) (1 + 1.00))
              / (1.0 + (if (total2 =? 0)%Z then 0 else 0.6) + 1.2)).
  intros change2 change1 Hchange.
  apply py_max_mono, Qmult_le_compat_l_nonneg; [exact Hfee |].
  destruct (Qle_bool (fee_rate policy) 2e-6); lra.
Qed.

Lemma new_fee_rate_monotone_witness :
  exists new_policy1 new_policy2,
    outcome (fee_rate_change_channel Sample.setter2 ∅ 40 20 0.000004
               2 Sample.other_channel) []
      = inr (channel_point Sample.other_channel, new_policy1) /\
    outcome (fee_rate_change_channel Sample.setter2 ∅ 40 20 0.000004
               2 {| channel_point := "b:1"; capacity := 2000000;
                    unbalancedness := 0.3 |}) []
      = inr ("b:1"%string, new_policy2) /\
    fee_rate new_policy1 <= fee_rate new_policy2.
Proof.
  apply (new_fee_rate_monotone Sample.setter2 ∅ ∅ 40 20 0.000004 2 2
           Sample.other_channel
           {| channel_point := "b:1"; capacity := 2000000;
              unbalancedness := 0.3 |}
           [] [] Sample.policy_100 7
           0 0 0 0 0 0 0 0 0 0 0 0).
  - reflexivity.
  - reflexivity.
  - vm_compute; discriminate.
  - reflexivity.
  - reflexivity.
  - reflexivity.
  - reflexivity.
  - vm_compute; discriminate.
  - vm_compute; discriminate.
  - vm_compute; discriminate.
  - reflexivity.
Defined.

(** ** Using [fee_rate_change] on its own *)

(** Before [set_fees_demand] has stored a window, [fee_rate_change] only
    works on an empty batch, for which it logs its two header lines and
    returns the empty mapping; on any other batch it raises on the first
    channel, [KeyError] when that channel has no current policy and
    [AttributeError] otherwise. *)
Theorem fee_rate_change_without_window (self : FeeSetter)
    (channels : list (Z * ChannelData)) (stats : gmap Z ChannelStats)
    (base_fee_msat cltv : Z) (min_fee_rate : Q) (log : list LogRecord) :
  time_interval_days self = None ->
  (channels = [] ->
   fee_rate_change self channels stats base_fee_msat cltv min_fee_rate log =
   (log ++ [InfoDetermining; InfoBaseFeeCltv base_fee_msat cltv], inr ∅)) /\
  (forall channel_id channel_data rest,
     channels = (channel_id, channel_data) :: rest ->
     outcome (fee_rate_change self channels stats base_fee_msat cltv
                min_fee_rate) log =
     inl (match channel_fee_policies self !! channel_point channel_data with
          | Some _ => AttributeError "time_interval_days"
          | None => KeyError (channel_point channel_data)
          end)).
Proof.
  intros Hd. split.
  - intros ->. rewrite fee_rate_change_unfold. simpl.
    unfold mret, M_ret. now rewrite <- app_assoc.
  - intros channel_id channel_data rest ->.
    rewrite fee_rate_change_outcome, fee_rate_change_loop_outcome.
    destruct (channel_fee_policies self !! channel_point channel_data)
      as [policy |] eqn:Hp.
    + destruct (fee_rate_change_channel_no_window self stats base_fee_msat
                  cltv min_fee_rate channel_id channel_data [] policy Hp)
        as (e & -> & ->); [rewrite Hd; exact I |].
      rewrite Hd. reflexivity.
    + unfold outcome.
      rewrite fee_rate_change_channel_no_policy by exact Hp. reflexivity.
Qed.

Lemma fee_rate_change_without_window_witness :
  outcome (fee_rate_change Sample.setter_fresh Sample.batch ∅
             40 20 0.000004) [] =
  inl (match channel_fee_policies Sample.setter_fresh
             !! channel_point Sample.idle_channel with
       | Some _ => AttributeError "time_interval_days"
       | None => KeyError (channel_point Sample.idle_channel)
       end).
Proof.
  apply (proj2 (fee_rate_change_without_window Sample.setter_fresh
                  Sample.batch ∅ 40 20 0.000004 [] eq_refl)
               1%Z Sample.idle_channel [(2%Z, Sample.other_channel)]).
  reflexivity.
Defined.

(** ** What [set_fees_demand] hands to the node *)

(** When [set_fees_demand] returns, it has handed nothing to the node only
    if the call was not reckless and the question was answered with no.
    What it hands over is the mapping [fee_rate_change] computes with the
    window [from_days_ago], whatever window was stored before: its keys are
    the channel points of the batch and its fee rates respect the floor. *)
Theorem set_fees_demand_hands_over (self : FeeSetter)
    (channels : list (Z * ChannelData)) (stats : gmap Z ChannelStats)
    (answer : bool) (cltv base_fee_msat : Z) (from_days_ago min_fee_rate : Q)
    (reckless : bool) (log : list LogRecord)
    (result : option (gmap string FeePolicy)) :
  outcome (set_fees_demand self channels stats answer cltv base_fee_msat
             from_days_ago min_fee_rate reckless) log = inr result ->
  (result = None <-> reckless = false /\ answer = false) /\
  (forall new_policies,
     result = Some new_policies ->
     outcome (fee_rate_change
                {| channel_fee_policies := channel_fee_policies self;
                   time_interval_days := Some from_days_ago |}
                channels stats base_fee_msat cltv min_fee_rate) []
       = inr new_policies /\
     (forall key,
        is_Some (new_policies !! key) <->
        key ∈ (fun item => channel_point item.2) <$> channels) /\
     (forall key policy,
        new_policies !! key = Some policy ->
        min_fee_rate <= fee_rate policy)).
Proof.
  rewrite set_fees_demand_outcome.
  set (self' := {| channel_fee_policies := channel_fee_policies self;
                   time_interval_days := Some from_days_ago |}).
  destruct (outcome (fee_rate_change self' channels stats base_fee_msat cltv
                       min_fee_rate) [])
    as [e | computed] eqn:Hrun; [discriminate |].
  intros Hresult. inversion Hresult as [Hres]; clear Hresult.
  split.
  - destruct reckless, answer; simpl; split;
      try discriminate; try tauto; intros [? ?]; discriminate.
  - intros new_policies Hsome.
    assert (Heq : new_policies = computed)
      by (destruct (reckless || answer); congruence).
    subst new_policies. split; [reflexivity |].
    rewrite fee_rate_change_outcome in Hrun.
    destruct (fee_rate_change_loop_lookup _ _ _ _ _ _ _ _ _ Hrun)
      as (_ & Hkeep & _).
    destruct (fee_rate_change_loop_keys _ _ _ _ _ _ _ _ _ Hrun) as [_ Hnew].
    split.
    + intros key. split.
      * intros Hk.
        destruct (decide (key ∈ (fun item => channel_point item.2)
                                <$> channels)) as [Hin | Hout];
          [exact Hin |].
        rewrite (Hkeep key Hout), lookup_empty in Hk.
        destruct Hk as [p Hp]. discriminate.
      * intros ([channel_id channel_data] & -> & Hin)%list_elem_of_fmap.
        apply (Hnew _ _ Hin).
    + intros key policy Hk.
      apply (fee_rate_change_loop_floor _ _ _ _ _ _ _ _ _
               (map_Forall_empty _) Hrun key policy Hk).
Qed.

Lemma set_fees_demand_hands_over_witness :
  outcome (fee_rate_change
             {| channel_fee_policies := channel_fee_policies Sample.setter2;
                time_interval_days := Some 7 |}
             Sample.batch {[ 2%Z := Sample.busy_stats ]} 40 20 0.000004) []
    = inr Sample.batch_policies /\
  (forall key,
     is_Some (Sample.batch_policies !! key) <->
     key ∈ (fun item => channel_point item.2) <$> Sample.batch) /\
  (forall key policy,
     Sample.batch_policies !! key = Some policy ->
     0.000004 <= fee_rate policy).
Proof.
  assert (Hrun : outcome (set_fees_demand Sample.setter2 Sample.batch
                            {[ 2%Z := Sample.busy_stats ]} true 20 40 7
                            0.000004 false) []
                 = inr (Some Sample.batch_policies))
    by (vm_compute; reflexivity).
  exact (proj2 (set_fees_demand_hands_over Sample.setter2 Sample.batch
                  {[ 2%Z := Sample.busy_stats ]} true 20 40 7 0.000004
                  false [] (Some Sample.batch_policies) Hrun)
               Sample.batch_policies eq_refl).
Defined.

(** ** The decision report *)

Lemma log_of_extends {A : Type} (m : M A) (log : list LogRecord) (r : LogRecord) :
  appends m -> r ∈ log -> r ∈ log_of m log.
Proof.
  intros Hm Hin. unfold log_of at 1. rewrite (Hm log). simpl.
  apply elem_of_app. left. exact Hin.
Qed.

(** The records of a loop that returns: six per channel, among them the
    line with the current and the new fee rate of the channel. *)
Lemma fee_rate_change_loop_report (self : FeeSetter)
    (stats : gmap Z ChannelStats) (base_fee_msat cltv : Z) (min_fee_rate : Q)
    (items : list (Z * ChannelData)) :
  forall (acc : gmap string FeePolicy) (log : list LogRecord)
         (new_policies : gmap string FeePolicy),
    outcome (fee_rate_change_loop self stats base_fee_msat cltv min_fee_rate
               items acc) log = inr new_policies ->
    length (log_of (fee_rate_change_loop self stats base_fee_msat cltv
                      min_fee_rate items acc) log)
      = (length log + 6 * length items)%nat /\
    (forall item, item ∈ items ->
       exists policy new_policy,
         channel_fee_policies self !! channel_point item.2 = Some policy /\
         outcome (fee_rate_change_channel self stats base_fee_msat cltv
                    min_fee_rate item.1 item.2) []
           = inr (channel_point item.2, new_policy) /\
         InfoFeeRate (fee_rate policy) (fee_rate new_policy)
           ∈ log_of (fee_rate_change_loop self stats base_fee_msat cltv
                       min_fee_rate items acc) log).
Proof.
  induction items as [| [channel_id channel_data] items IH];
    intros acc log new_policies Hrun.
  - split; [unfold log_of; simpl; lia | intros item Hin; inversion Hin].
  - unfold outcome, log_of in *.
    rewrite fee_rate_change_loop_cons in *.
    destruct (fee_rate_change_channel self stats base_fee_msat cltv
                min_fee_rate channel_id channel_data log)
      as [log' [e | [key new_policy]]] eqn:Hbody; [discriminate |].
    assert (Hout : outcome (fee_rate_change_channel self stats base_fee_msat
                              cltv min_fee_rate channel_id channel_data) log
                   = inr (key, new_policy))
      by (unfold outcome; rewrite Hbody; reflexivity).
    destruct (fee_rate_change_channel_returns _ _ _ _ _ _ _ _ _ _ Hout)
      as (policy & days & Hp & Hd & Hnz).
    destruct (read_channel_stats (stats !! channel_id))
      as [[[[[flow fees_sat] t_in] t_out] total] count] eqn:Hs.
    rewrite (fee_rate_change_channel_run _ _ _ _ _ _ _ _ _ _ _ _ _ _ _ _
               Hp Hd Hnz Hs) in Hbody.
    cbv zeta in Hbody. injection Hbody as Hlog Hkey Hnew.
    destruct (IH (<[key := new_policy]> acc) log' new_policies Hrun)
      as [Hlen Hlines].
    unfold log_of in Hlen, Hlines.
    split.
    + rewrite Hlen, <- Hlog, length_app. simpl. lia.
    + intros item Hin. apply elem_of_cons in Hin as [-> | Hin].
      * exists policy, new_policy. simpl.
        split; [exact Hp |].
        split.
        { rewrite Hkey, <- Hout. symmetry.
          apply outcome_any_log. auto with appends. }
        apply (log_of_extends (fee_rate_change_loop _ _ _ _ _ _ _));
          [auto with appends |].
        rewrite <- Hlog, <- Hnew. simpl.
        apply elem_of_app. right.
        do 4 apply list_elem_of_further. apply list_elem_of_here.
      * apply Hlines, Hin.
Qed.

(** When [fee_rate_change] returns, it has logged its two header lines and
    six records for every channel, and for every channel the line with the
    fee rates shows the channel's current fee rate and the new fee rate the
    body computes for it. *)
Theorem decision_report_complete (self : FeeSetter)
    (channels : list (Z * ChannelData)) (stats : gmap Z ChannelStats)
    (base_fee_msat cltv : Z) (min_fee_rate : Q) (log : list LogRecord)
    (new_policies : gmap string FeePolicy) :
  outcome (fee_rate_change self channels stats base_fee_msat cltv
             min_fee_rate) log = inr new_policies ->
  length (log_of (fee_rate_change self channels stats base_fee_msat cltv
                    min_fee_rate) log)
    = (length log + 2 + 6 * length channels)%nat /\
  (forall channel_id channel_data,
     (channel_id, channel_data) ∈ channels ->
     exists policy new_policy,
       channel_fee_policies self !! channel_point channel_data
         = Some policy /\
       outcome (fee_rate_change_channel self stats base_fee_msat cltv
                  min_fee_rate channel_id channel_data) []
         = inr (channel_point channel_data, new_policy) /\
       InfoFeeRate (fee_rate policy) (fee_rate new_policy)
         ∈ log_of (fee_rate_change self channels stats base_fee_msat cltv
                     min_fee_rate) log).
Proof.
  intros Hrun. unfold outcome, log_of in *.
  rewrite fee_rate_change_unfold in *.
  destruct (fee_rate_change_loop_report _ _ _ _ _ _ _ _ _ Hrun)
    as [Hlen Hlines].
  unfold log_of in Hlen, Hlines. split.
  - rewrite Hlen, !length_app. simpl. lia.
  - intros channel_id channel_data Hin.
    apply (Hlines (channel_id, channel_data) Hin).
Qed.

Lemma decision_report_complete_witness :
  length (log_of (fee_rate_change Sample.setter2 Sample.batch
                    {[ 2%Z := Sample.busy_stats ]} 40 20 0.000004) [])
    = (length (@nil LogRecord) + 2 + 6 * length Sample.batch)%nat.
Proof.
  apply (decision_report_complete Sample.setter2 Sample.batch
           {[ 2%Z := Sample.busy_stats ]} 40 20 0.000004 []
           Sample.batch_policies).
  vm_compute. reflexivity.
Defined.

(** ** When the computation returns *)

(** The loop body has three ways to fail, in this order: without a current
    policy for the channel point it raises [KeyError]; with one, but without
    a stored window, [AttributeError]; with a window of zero days,
    [ZeroDivisionError].  In every other case it returns a policy under the
    channel point. *)
Theorem channel_failure_modes (self : FeeSetter)
    (stats : gmap Z ChannelStats) (base_fee_msat cltv : Z) (min_fee_rate : Q)
    (channel_id : Z) (channel_data : ChannelData) (log : list LogRecord) :
  let result :=
    outcome (fee_rate_change_channel self stats base_fee_msat cltv
               min_fee_rate channel_id channel_data) log in
  match channel_fee_policies self !! channel_point channel_data,
        time_interval_days self with
  | None, _ => result = inl (KeyError (channel_point channel_data))
  | Some _, None => result = inl (AttributeError "time_interval_days")
  | Some _, Some days =>
      if Qeq_bool days 0 then result = inl ZeroDivisionError
      else exists new_policy,
             result = inr (channel_point channel_data, new_policy)
  end.
Proof.
  cbv zeta.
  destruct (channel_fee_policies self !! channel_point channel_data)
    as [policy |] eqn:Hp.
  - destruct (time_interval_days self) as [days |] eqn:Hd.
    + destruct (Qeq_boolP days 0) as [Hz | Hnz].
      * destruct (fee_rate_change_channel_no_window self stats base_fee_msat
                    cltv min_fee_rate channel_id channel_data log policy Hp)
          as (e & -> & ->); [rewrite Hd; exact Hz |].
        rewrite Hd. reflexivity.
      * apply (fee_rate_change_channel_succeeds self stats base_fee_msat
                 cltv min_fee_rate channel_id channel_data log days);
          [rewrite Hp; eauto | exact Hd | exact Hnz].
    + destruct (fee_rate_change_channel_no_window self stats base_fee_msat
                  cltv min_fee_rate channel_id channel_data log policy Hp)
        as (e & -> & ->); [rewrite Hd; exact I |].
      rewrite Hd. reflexivity.
  - unfold outcome.
    rewrite fee_rate_change_channel_no_policy by exact Hp. reflexivity.
Qed.

(** [fee_rate_change] returns a mapping exactly when every channel of the
    batch has a current policy and, unless the batch is empty, a window
    that is not zero has been stored. *)
Theorem fee_rate_change_returns_iff (self : FeeSetter)
    (channels : list (Z * ChannelData)) (stats : gmap Z ChannelStats)
    (base_fee_msat cltv : Z) (min_fee_rate : Q) (log : list LogRecord) :
  (exists new_policies,
     outcome (fee_rate_change self channels stats base_fee_msat cltv
                min_fee_rate) log = inr new_policies) <->
  Forall (fun item =>
            is_Some (channel_fee_policies self !! channel_point item.2))
         channels /\
  (channels = [] \/
   exists days, time_interval_days self = Some days /\ ~ days == 0).
Proof.
  rewrite fee_rate_change_outcome. split.
  - intros [new_policies Hrun].
    destruct (fee_rate_change_loop_lookup _ _ _ _ _ _ _ _ _ Hrun)
      as (Hbodies & _).
    assert (Hreturns : forall item, item ∈ channels ->
              exists policy days,
                channel_fee_policies self !! channel_point item.2
                  = Some policy /\
                time_interval_days self = Some days /\ ~ days == 0).
    { intros item Hin. destruct (Hbodies item Hin) as [policy Hbody].
      apply (fee_rate_change_channel_returns _ _ _ _ _ _ _ _ _ _ Hbody). }
    split.
    + apply Forall_forall. intros item Hin.
      destruct (Hreturns item Hin) as (policy & _ & Hp & _). eauto.
    + destruct channels as [| item rest]; [left; reflexivity | right].
      destruct (Hreturns item) as (_ & days & _ & Hd & Hnz);
        [apply list_elem_of_here | eauto].
  - intros [Hall [-> | (days & Hd & Hnz)]].
    + exists ∅. reflexivity.
    + apply (fee_rate_change_loop_succeeds self stats base_fee_msat cltv
               min_fee_rate days channels Hd Hnz Hall).
Qed.
